(** * Stonermart SEO dashboard: the browser-side controller, [static/js/app.js]

    A shallow embedding of the controller: its two globals, the part of the
    DOM it reads and writes, the requests it sends and the chart instance it
    owns, followed by the properties of the specification that concern it.

    - JavaScript numbers are IEEE 754 binary64 values, here the primitive
      [float]; [Number.prototype.toFixed] is computed on the exact value of
      the double, as ECMAScript defines it.
    - Website identifiers are integers ([Z]); [null] is [None].
    - An [async] function is run to completion: the text between two
      [await]s is not interleaved with another handler.
    - What the browser, the server and the user decide is a [Host]: the reply
      to each request, the answer to each confirm dialog, and the
      locale-dependent renderings of numbers and dates.
    - A reply is any JSON value or none; the script reads it untyped, and
      so does the model: [null], a value that is no array and a value of
      length 0 each take their own path.
    - The markup assigned to [innerHTML] is the tree the browser builds from
      it. Names and URLs are written into the markup as they are: where
      they are plain text the tree is that of the template, and otherwise
      it is what the browser's parser makes of the markup, which the host
      decides.
    - The elements the script looks up by id are on the page. *)

From Stdlib Require Import ZArith QArith Qabs String Ascii List Lia Bool.
From Stdlib Require Import Floats.PrimFloat Floats.FloatOps Floats.SpecFloat.
From Stdlib Require Import Floats.FloatAxioms.
From Stdlib Require Import Numbers.Cyclic.Int63.Uint63.
From stdpp Require Import base option list gmap strings pretty.

Local Open Scope string_scope.
Local Open Scope list_scope.

(** ** JavaScript numbers *)

Module Number.

Definition number := float.

(** [n] as the double [ToNumber(n)], for the array lengths the code divides
    by (an array length is below 2^32, so the conversion is exact). *)
Definition of_nat (n : nat) : number :=
  PrimFloat.of_uint63 (Uint63.of_Z (Z.of_nat n)).

(** The double nearest to an integer from 0 to 2^63 - 1: the integer itself
    below 2^53. A count in a JSON reply is read as this double. *)
Definition of_Z (z : Z) : number := PrimFloat.of_uint63 (Uint63.of_Z z).

Definition pow10 (f : nat) : Z := 10 ^ Z.of_nat f.

(** Step 11.a of [toFixed]: "let n be an integer for which n / 10^f - x is
    as close to zero as possible; if there are two such n, pick the larger",
    for the non-negative double x = m * 2^e. *)
Definition nearest_scaled (f : nat) (m : positive) (e : Z) : Z :=
  if (0 <=? e)%Z then Z.pos m * 2 ^ e * pow10 f
  else (2 * (Z.pos m * pow10 f) + 2 ^ (- e)) / (2 * 2 ^ (- e)).

Fixpoint zeros (k : nat) : string :=
  match k with O => "" | S k => String "0" (zeros k) end.

Fixpoint take (k : nat) (s : string) : string :=
  match k, s with
  | S k, String c s => String c (take k s)
  | _, _ => ""
  end.

Fixpoint drop (k : nat) (s : string) : string :=
  match k, s with
  | S k, String _ s => drop k s
  | _, _ => s
  end.

(** Steps 11.b-11.c of [toFixed]: the digits of [n] with a decimal point
    before the last [f] of them, padded with zeros on the left up to
    [f + 1] digits. *)
Definition fixed_digits (f : nat) (n : Z) : string :=
  let m := if (n =? 0)%Z then "0" else pretty n in
  match f with
  | O => m
  | _ =>
      let k := String.length m in
      let m := if (k <=? f)%nat then zeros (f + 1 - k) +:+ m else m in
      let k := String.length m in
      take (k - f) m +:+ "." +:+ drop (k - f) m
  end.

Section Host.
(** The digits of [Number::toString] for a finite, non-zero double (the
    shortest decimal that reads back as the same double): the browser's,
    not modelled. *)
Variable shortest_decimal : number -> string.

(** [Number::toString(x)], radix 10. *)
Definition toString (x : number) : string :=
  if PrimFloat.is_nan x then "NaN"
  else if PrimFloat.is_zero x then "0"
  else if PrimFloat.eqb x PrimFloat.infinity then "Infinity"
  else if PrimFloat.eqb x PrimFloat.neg_infinity then "-Infinity"
  else shortest_decimal x.

(** [x.toFixed(f)] for 0 <= f <= 100. *)
Definition toFixed (f : nat) (x : number) : string :=
  match Prim2SF x with
  | S754_nan | S754_infinity _ => toString x
  | S754_zero _ => fixed_digits f 0
  | S754_finite s m e =>
      if PrimFloat.leb 1e21 (PrimFloat.abs x)
      then toString x
      else (if s then "-" else "") +:+ fixed_digits f (nearest_scaled f m e)
  end.
End Host.

(** The value of a decimal digit. *)
Definition digit_value (c : ascii) : option Z :=
  let k := (Z.of_N (N_of_ascii c) - 48)%Z in
  if ((0 <=? k) && (k <=? 9))%Z then Some k else None.

(** The integer that a string of digits spells, continuing from [acc]. *)
Fixpoint digits_value (s : string) (acc : Z) : option Z :=
  match s with
  | EmptyString => Some acc
  | String c s =>
      match digit_value c with
      | Some d => digits_value s (10 * acc + d)
      | None => None
      end
  end.

(** Reads digits with at most one decimal point: the integer that the
    digits spell once the point is removed, and the number of digits after
    the point. So [read_fixed s 0 None = Some (n, f)] says that [s] is the
    decimal numeral of n / 10^f with exactly [f] decimals. *)
Fixpoint read_fixed (s : string) (acc : Z) (decimals : option nat)
  : option (Z * nat) :=
  match s with
  | EmptyString => Some (acc, default 0%nat decimals)
  | String c s =>
      if Ascii.eqb c "." then
        match decimals with
        | None => read_fixed s acc (Some 0%nat)
        | Some _ => None
        end
      else
        match digit_value c with
        | Some d => read_fixed s (10 * acc + d) (S <$> decimals)
        | None => None
        end
  end.

(** The exact value of a finite double, as a rational. *)
Definition magnitude (m : positive) (e : Z) : Q :=
  if (0 <=? e)%Z then inject_Z (Z.pos m * 2 ^ e)
  else Z.pos m # Z.to_pos (2 ^ (- e)).

(** The exact value of a double; none for NaN and the infinities. *)
Definition value_of (x : number) : option Q :=
  match Prim2SF x with
  | S754_zero _ => Some 0%Q
  | S754_finite s m e =>
      Some (if s then (- magnitude m e)%Q else magnitude m e)
  | _ => None
  end.

(** The double of a positive integer below 2^53: the integer shifted left
    to 53 bits, with the exponent that undoes the shift. *)
Definition canonical (v : positive) : spec_float :=
  let t := (53 - Pos.to_nat (digits2_pos v))%nat in
  S754_finite false (Nat.iter t xO v) (- Z.of_nat t).

(** The double of an integer from 0 to 2^53 - 1. *)
Definition double_of (z : Z) : spec_float :=
  match z with
  | Z.pos v => canonical v
  | _ => S754_zero false
  end.

End Number.

(** ** Data model *)

Module Website.
(** [{ id, name, url, is_verified, last_audit }]; [last_audit] is a
    timestamp or [null]. *)
Record t := mk
  { id : Z; name : string; url : string;
    is_verified : bool; last_audit : option string }.
End Website.

Module Metric.
(** [{ date, clicks, impressions, position }]. *)
Record t := mk
  { date : string; clicks : Number.number;
    impressions : Number.number; position : Number.number }.
End Metric.

(** A value that is a string or a number, and its [ToString], as a template
    literal applies it. *)
Inductive value := VString (s : string) | VNumber (x : Number.number).

(** ** Requests and replies *)

Inductive Method := GET | POST | DELETE.

(** [fetch(path, { method, body })]; the only body sent is
    [JSON.stringify({ name, url })]. *)
Record Request := mkRequest
  { method : Method; path : string; body : option (string * string) }.

(** What [response.json()] yields. [NotJson] makes [json()] reject; [Null]
    is the JSON value [null]. An [Array] is an array of records of the
    endpoint addressed, with the fields of its schema, of type [A] (websites,
    metric samples; nothing is read from the elements of a reply to POST or
    DELETE). [Other] stands for every other JSON value, by the two things
    the script reads from it: whether its [length] is the number 0 (an
    object with such a field, the empty string) and the text of its [error]
    field, when it has one. It covers objects, strings, numbers and
    booleans, and an array that holds [null]: reading a field of that
    element throws as calling [map] on a value that is no array does. *)
Inductive Payload (A : Type) :=
| NotJson
| Null
| Array (items : list A)
| Other (length_zero : bool) (error : option string).
Arguments NotJson {A}.
Arguments Null {A}.
Arguments Array {A} items.
Arguments Other {A} length_zero error.

Inductive FetchOutcome (A : Type) :=
| Rejected
| Response (ok : bool) (payload : Payload A).
Arguments Rejected {A}.
Arguments Response {A} ok payload.

Inductive Exn := NetworkError | SyntaxError | TypeError.

(** ** The rendered grid *)

(** The code in an [onclick] attribute. *)
Inductive Handler :=
| CallSelectWebsite (websiteId : Z) (websiteName : string)
| CallDeleteWebsite (websiteId : Z)
| CallShowAddWebsiteModal.

(** The tree the browser builds from markup assigned to [innerHTML]: tag,
    class list, [onclick] and children ([style] and [title] attributes and
    white space are left out). [onclick] is the call in the attribute, when
    its code is a call of one of the three functions. *)
#[warnings="-register-all"]
Inductive html :=
| Text (s : string)
| Elem (tag : string) (classes : list string) (onclick : option Handler)
       (children : list html).

(** ** Charts *)

(** The data of the configuration passed to [new Chart]: the labels and the
    three series (colours, axes and the other constant options are left
    out). *)
Record ChartConfig := mkChartConfig
  { labels : list string;
    clicksData : list Number.number;
    impressionsData : list Number.number;
    positionData : list Number.number }.

(** ** Effects *)

Inductive Event :=
| Fetch (r : Request)
| Confirm (message : string)
| Notification (message type : string)
| ConsoleError (label : string) (e : Exn)
| ConsoleLog (label : string)
| SetDisplay (element v : string)
| SetTextContent (element v : string)
| SetInnerHTML (element : string)
| ScrollIntoView (element : string)
| Focus (element : string)
| FormReset (element : string)
| PreventDefault
| ChartNew (chart : nat)
| ChartDestroy (chart : nat).

(** The two globals of the script, the part of the page it touches (by
    element id), the live chart instances of the charting library and the
    trace of effects so far. *)
Record State := mkState
  { currentWebsiteId : option Z;
    performanceChart : option nat;
    textContent : gmap string string;
    display : gmap string string;
    input_value : gmap string string;
    websites_grid : list html;
    instances : gmap nat ChartConfig;
    chart_count : nat;
    log : list Event }.

(** What the script does not decide: the server's reply to a request (to the
    list request, to a metrics request, to a POST or DELETE) and the user's
    answer to a confirm dialog, all given the trace so far; the browser's
    locale-dependent renderings; and [parse_cards], the elements the
    browser's parser builds from the markup of the cards of a list in which
    some name or URL is not plain text, and so may close the attribute, the
    string literal or the element it is written into. *)
Record Host := mkHost
  { websites_reply : list Event -> Request -> FetchOutcome Website.t;
    metrics_reply : list Event -> Request -> FetchOutcome Metric.t;
    command_reply : list Event -> Request -> FetchOutcome unit;
    confirm : list Event -> string -> bool;
    toLocaleString : Number.number -> string;
    toLocaleDateString : string -> string;
    shortest_decimal : Number.number -> string;
    parse_cards : list Website.t -> list html }.

Definition set_currentWebsiteId (v : option Z) (s : State) : State :=
  mkState v (performanceChart s) (textContent s) (display s) (input_value s)
    (websites_grid s) (instances s) (chart_count s) (log s).

Definition set_performanceChart (v : option nat) (s : State) : State :=
  mkState (currentWebsiteId s) v (textContent s) (display s) (input_value s)
    (websites_grid s) (instances s) (chart_count s) (log s).

Definition set_textContent (v : gmap string string) (s : State) : State :=
  mkState (currentWebsiteId s) (performanceChart s) v (display s)
    (input_value s) (websites_grid s) (instances s) (chart_count s) (log s).

Definition set_display (v : gmap string string) (s : State) : State :=
  mkState (currentWebsiteId s) (performanceChart s) (textContent s) v
    (input_value s) (websites_grid s) (instances s) (chart_count s) (log s).

Definition set_input_value (v : gmap string string) (s : State) : State :=
  mkState (currentWebsiteId s) (performanceChart s) (textContent s)
    (display s) v (websites_grid s) (instances s) (chart_count s) (log s).

Definition set_websites_grid (v : list html) (s : State) : State :=
  mkState (currentWebsiteId s) (performanceChart s) (textContent s)
    (display s) (input_value s) v (instances s) (chart_count s) (log s).

Definition set_instances (v : gmap nat ChartConfig) (n : nat) (s : State)
  : State :=
  mkState (currentWebsiteId s) (performanceChart s) (textContent s)
    (display s) (input_value s) (websites_grid s) v n (log s).

Definition record (e : Event) (s : State) : State :=
  mkState (currentWebsiteId s) (performanceChart s) (textContent s)
    (display s) (input_value s) (websites_grid s) (instances s)
    (chart_count s) (log s ++ [e]).

(** The state when the script is loaded: both globals [null], no chart,
    nothing rendered or sent yet; [page] gives the initial values of the
    form controls. *)
Definition initial (page : gmap string string) : State :=
  mkState None None ∅ ∅ page [] ∅ 0 [].

(** ** A state and exception monad for the script *)

Inductive Outcome (A : Type) :=
| Ret (a : A)
| Throw (e : Exn).
Arguments Ret {A} a.
Arguments Throw {A} e.

Definition M (A : Type) : Type := State -> Outcome A * State.

Definition ret {A} (a : A) : M A := fun s => (Ret a, s).

Definition throw {A} (e : Exn) : M A := fun s => (Throw e, s).

Definition bind {A B} (c : M A) (k : A -> M B) : M B := fun s =>
  match c s with
  | (Ret a, s') => k a s'
  | (Throw e, s') => (Throw e, s')
  end.

Notation "x <- c ;; k" := (bind c (fun x => k))
  (at level 100, c at next level, right associativity).
Notation "c ;; k" := (bind c (fun _ => k))
  (at level 100, right associativity).

Definition gets {A} (f : State -> A) : M A := fun s => (Ret (f s), s).

Definition modify (f : State -> State) : M unit := fun s => (Ret tt, f s).

(** [try { body } catch (error) { handler } finally { finalizer }]. *)
Definition try_catch_finally {A} (body : M A) (handler : Exn -> M A)
    (finalizer : M unit) : M A := fun s =>
  let (r, s1) := body s in
  let (r', s2) := match r with
                  | Ret a => (Ret a, s1)
                  | Throw e => handler e s1
                  end in
  match finalizer s2 with
  | (Ret _, s3) => (r', s3)
  | (Throw e, s3) => (Throw e, s3)
  end.

(** The state in which a call leaves the page. *)
Definition exec {A} (c : M A) (s : State) : State := snd (c s).

(** ** Primitive effects *)

Definition emit (e : Event) : M unit := modify (record e).

(** [document.getElementById(element).style.display = v] *)
Definition style_display (element v : string) : M unit :=
  modify (fun s => record (SetDisplay element v)
                     (set_display (<[element := v]> (display s)) s)).

(** [document.getElementById(element).textContent = v] *)
Definition put_textContent (element v : string) : M unit :=
  modify (fun s => record (SetTextContent element v)
                     (set_textContent (<[element := v]> (textContent s)) s)).

(** [document.getElementById(element).value] *)
Definition get_value (element : string) : M string :=
  gets (fun s => default "" (input_value s !! element)).

(** The user types [v] into a form control. *)
Definition type_value (element v : string) : M unit :=
  modify (fun s => set_input_value (<[element := v]> (input_value s)) s).

(** [grid.innerHTML = ...] for the websites grid. *)
Definition put_grid (content : list html) : M unit :=
  modify (fun s => record (SetInnerHTML "websites-grid")
                     (set_websites_grid content s)).

(** [fetch(...)]: the request is sent; the reply is the host's. *)
Definition fetch {A} (reply : list Event -> Request -> FetchOutcome A)
    (r : Request) : M (bool * Payload A) := fun s =>
  match reply (log s) r with
  | Rejected => (Throw NetworkError, record (Fetch r) s)
  | Response ok payload => (Ret (ok, payload), record (Fetch r) s)
  end.

(** [response.json()] *)
Definition json {A} (payload : Payload A) : M (Payload A) :=
  match payload with
  | NotJson => throw SyntaxError
  | p => ret p
  end.

(** [x || fallback] for the [error] field of a reply: a missing field and
    the empty string are falsy. *)
Definition error_or {A} (payload : Payload A) (fallback : string) : string :=
  match payload with
  | Other _ (Some e) => if String.eqb e "" then fallback else e
  | _ => fallback
  end.

(** Reading a field of a parsed reply, as in [result.results]: [null] has
    no fields, and the read throws. *)
Definition get_field {A} (payload : Payload A) : M unit :=
  match payload with
  | Null => throw TypeError
  | _ => ret tt
  end.

(** [payload.error || fallback] *)
Definition error_of {A} (payload : Payload A) (fallback : string) : M string :=
  get_field payload ;; ret (error_or payload fallback).

(** [currentWebsiteId] under a truthiness test, as in
    [if (currentWebsiteId)]: the identifier when the test passes; [null] and
    the number [0] are falsy. *)
Definition truthy (v : option Z) : option Z :=
  match v with
  | Some i => if (i =? 0)%Z then None else Some i
  | None => None
  end.

(** [chart.destroy()]: the instance leaves the library's registry. *)
Definition destroy (c : nat) : M unit :=
  modify (fun s => record (ChartDestroy c)
                     (set_instances (delete c (instances s))
                        (chart_count s) s)).

(** [new Chart(ctx, config)]: a fresh instance enters the registry. *)
Definition new_Chart (config : ChartConfig) : M nat := fun s =>
  let c := chart_count s in
  (Ret c, record (ChartNew c)
            (set_instances (<[c := config]> (instances s)) (S c) s)).

(** ** The controller *)

Local Open Scope float_scope.

(** [array.reduce((sum, m) => sum + field(m), 0)] *)
Definition reduce_sum (field : Metric.t -> Number.number)
    (metrics : list Metric.t) : Number.number :=
  fold_left (fun sum m => sum + field m) metrics 0.

(** The empty-state block of [displayWebsites]. *)
Definition empty_state : html :=
  Elem "div" ["empty-state"; "glass-effect"] None
    [ Elem "i" ["fas"; "fa-globe"; "fa-3x"; "neon-icon"] None [];
      Elem "h3" [] None [Text "No websites added yet"];
      Elem "p" [] None
        [Text "Add your first website to start monitoring SEO metrics"];
      Elem "button" ["btn"; "btn-primary"; "neon-btn"]
        (Some CallShowAddWebsiteModal)
        [ Elem "i" ["fas"; "fa-plus"] None [];
          Text " Add Your First Website" ] ].

(** A text that stays text when the template interpolates it: it has none
    of the characters that end a quoted attribute, a string literal or a text
    node, or that the parser rewrites (the null character, line feed,
    carriage return, the two quotes, ampersand, angle brackets,
    backslash). *)
Definition plain (text : string) : bool :=
  forallb (fun c => negb (existsb (Nat.eqb (nat_of_ascii c))
                            [0; 10; 13; 34; 38; 39; 60; 62; 92]%nat))
    (list_ascii_of_string text).

(** The texts of a website that the card template interpolates. *)
Definition plain_website (website : Website.t) : bool :=
  plain (Website.name website) && plain (Website.url website).

(** The card that the template of [displayWebsites] yields for one
    website whose name and URL are plain text. *)
Definition card (website : Website.t) : html :=
  Elem "div" ["website-card"; "glass-effect"; "fade-in-up"]
    (Some (CallSelectWebsite (Website.id website) (Website.name website)))
    [ Elem "div" ["website-header"] None
        [ Elem "div" [] None
            [ Elem "h3" ["website-name"] None [Text (Website.name website)];
              Elem "p" ["website-url"] None [Text (Website.url website)] ];
          Elem "div" ["website-actions"] None
            [ Elem "button" ["btn-icon"]
                (Some (CallDeleteWebsite (Website.id website)))
                [ Elem "i" ["fas"; "fa-trash"] None [] ] ] ];
      Elem "div" ["website-stats"] None
        [ Elem "div" ["stat-item"] None
            [ Elem "div" ["stat-value"] None
                [Text (if Website.is_verified website
                       then "Verified" else "Pending")];
              Elem "div" ["stat-label"] None [Text "Status"] ];
          Elem "div" ["stat-item"] None
            [ Elem "div" ["stat-value"] None
                [Text (match Website.last_audit website with
                       | Some t => if String.eqb t "" then "Never" else "Recent"
                       | None => "Never"
                       end)];
              Elem "div" ["stat-label"] None [Text "Last Audit"] ] ] ].

(** The question [deleteWebsite] asks. *)
Definition delete_prompt : string :=
  "Are you sure you want to delete this website? This action cannot be undone.".

Section Controller.
Variable host : Host.

(** [`${v}`] *)
Definition ToString (v : value) : string :=
  match v with
  | VString s => s
  | VNumber x => Number.toString (shortest_decimal host) x
  end.

(** [x.toFixed(f)] in this browser. *)
Definition toFixed (f : nat) (x : Number.number) : string :=
  Number.toFixed (shortest_decimal host) f x.

(** [confirm(message)] *)
Definition confirm_dialog (message : string) : M bool := fun s =>
  (Ret (confirm host (log s) message), record (Confirm message) s).

Definition showLoading : M unit := style_display "loading-overlay" "flex".

Definition hideLoading : M unit := style_display "loading-overlay" "none".

(** The notification element is appended to the page; its removal five
    seconds later is a timer and is not modelled. *)
Definition showNotification (message type : string) : M unit :=
  emit (Notification message type).

(** The markup of the cards is assigned to [innerHTML] as it is: where every
    name and URL is plain text the browser builds the cards of the template,
    and otherwise what its parser makes of the markup. *)
Definition displayWebsites (websites : list Website.t) : M unit :=
  if (length websites =? 0)%nat
  then put_grid [empty_state]
  else if forallb plain_website websites
       then put_grid (map card websites)
       else put_grid (parse_cards host websites).

(** The status of the reply is not looked at. Of a reply that is no array
    [displayWebsites] first reads the [length]: that throws for [null]; a
    length of 0 gives the empty state; otherwise [websites.map] is no
    function and the call throws, before any write. *)
Definition loadWebsites : M unit :=
  try_catch_finally
    (showLoading ;;
     response <- fetch (websites_reply host)
                   (mkRequest GET "/api/websites" None) ;;
     websites <- json (snd response) ;;
     match websites with
     | Array websites => displayWebsites websites
     | Other true _ => displayWebsites []
     | _ => throw TypeError
     end)
    (fun error =>
       emit (ConsoleError "Error loading websites:" error) ;;
       showNotification "Error loading websites" "error")
    hideLoading.

Definition displayMetrics (metrics : list Metric.t) : M unit :=
  if (length metrics =? 0)%nat then
    put_textContent "total-clicks" "0" ;;
    put_textContent "total-impressions" "0" ;;
    put_textContent "avg-ctr" "0%" ;;
    put_textContent "avg-position" "0"
  else
    let totalClicks := reduce_sum Metric.clicks metrics in
    let totalImpressions := reduce_sum Metric.impressions metrics in
    let avgCtr :=
      if 0 <? totalImpressions
      then VString (toFixed 2 (totalClicks / totalImpressions * 100))
      else VNumber 0 in
    let avgPosition :=
      toFixed 1 (reduce_sum Metric.position metrics
                 / Number.of_nat (length metrics)) in
    put_textContent "total-clicks" (toLocaleString host totalClicks) ;;
    put_textContent "total-impressions"
      (toLocaleString host totalImpressions) ;;
    put_textContent "avg-ctr" (ToString avgCtr +:+ "%") ;;
    put_textContent "avg-position" avgPosition.

(** The 2d context of the canvas is fetched first; that has no effect. *)
Definition updateChart (metrics : list Metric.t) : M unit :=
  chart <- gets performanceChart ;;
  match chart with
  | Some c => destroy c
  | None => ret tt
  end ;;
  let labels :=
    map (fun m => toLocaleDateString host (Metric.date m)) metrics in
  let clicksData := map Metric.clicks metrics in
  let impressionsData := map Metric.impressions metrics in
  let positionData := map Metric.position metrics in
  c <- new_Chart
         (mkChartConfig labels clicksData impressionsData positionData) ;;
  modify (set_performanceChart (Some c)).

(** [updateChart] up to its first [metrics.map]: the chart that
    [performanceChart] refers to is destroyed, and stays assigned. *)
Definition updateChart_destroy : M unit :=
  chart <- gets performanceChart ;;
  match chart with
  | Some c => destroy c
  | None => ret tt
  end.

(** Of a reply that is no array [displayMetrics] first reads the [length]:
    that throws for [null]; with a length of 0 the four zeros are written,
    and [updateChart] destroys the chart before [metrics.map], which is no
    function, throws; otherwise [metrics.reduce] is no function and the call
    throws, before any write. *)
Definition loadWebsiteMetrics (websiteId : Z) : M unit :=
  try_catch_finally
    (showLoading ;;
     days <- get_value "date-range" ;;
     response <- fetch (metrics_reply host)
                   (mkRequest GET
                      ("/api/websites/" +:+ pretty websiteId
                       +:+ "/metrics?days=" +:+ days) None) ;;
     metrics <- json (snd response) ;;
     match metrics with
     | Array metrics => displayMetrics metrics ;; updateChart metrics
     | Other true _ =>
         displayMetrics [] ;; updateChart_destroy ;; throw TypeError
     | _ => throw TypeError
     end)
    (fun error =>
       emit (ConsoleError "Error loading metrics:" error) ;;
       showNotification "Error loading metrics" "error")
    hideLoading.

Definition selectWebsite (websiteId : Z) (websiteName : string) : M unit :=
  modify (set_currentWebsiteId (Some websiteId)) ;;
  put_textContent "selected-website-name" (websiteName +:+ " - Metrics") ;;
  style_display "metrics-section" "block" ;;
  emit (ScrollIntoView "metrics-section") ;;
  loadWebsiteMetrics websiteId.

Definition showAddWebsiteModal : M unit :=
  style_display "add-website-modal" "block" ;;
  emit (Focus "website-name").

Definition hideAddWebsiteModal : M unit :=
  style_display "add-website-modal" "none" ;;
  emit (FormReset "add-website-form").

Definition handleAddWebsite : M unit :=
  emit PreventDefault ;;
  name <- get_value "website-name" ;;
  url <- get_value "website-url" ;;
  try_catch_finally
    (showLoading ;;
     response <- fetch (command_reply host)
                   (mkRequest POST "/api/websites" (Some (name, url))) ;;
     if fst response then
       hideAddWebsiteModal ;;
       showNotification "Website added successfully!" "success" ;;
       loadWebsites
     else
       error <- json (snd response) ;;
       message <- error_of error "Error adding website" ;;
       showNotification message "error")
    (fun error =>
       emit (ConsoleError "Error adding website:" error) ;;
       showNotification "Error adding website" "error")
    hideLoading.

Definition deleteWebsite (websiteId : Z) : M unit :=
  confirmed <- confirm_dialog delete_prompt ;;
  if negb confirmed then ret tt
  else
    try_catch_finally
      (showLoading ;;
       response <- fetch (command_reply host)
                     (mkRequest DELETE
                        ("/api/websites/" +:+ pretty websiteId) None) ;;
       if fst response then
         showNotification "Website deleted successfully!" "success" ;;
         loadWebsites ;;
         current <- gets currentWebsiteId ;;
         if decide (current = Some websiteId) then
           style_display "metrics-section" "none" ;;
           modify (set_currentWebsiteId None)
         else ret tt
       else
         showNotification "Error deleting website" "error")
      (fun error =>
         emit (ConsoleError "Error deleting website:" error) ;;
         showNotification "Error deleting website" "error")
      hideLoading.

Definition runAudit : M unit :=
  current <- gets currentWebsiteId ;;
  match truthy current with
  | None => showNotification "Please select a website first" "error"
  | Some websiteId =>
      try_catch_finally
        (showLoading ;;
         response <- fetch (command_reply host)
                       (mkRequest POST
                          ("/api/websites/" +:+ pretty websiteId
                           +:+ "/audit") None) ;;
         result <- json (snd response) ;;
         if fst response then
           showNotification "Audit completed successfully!" "success" ;;
           get_field result ;;
           emit (ConsoleLog "Audit results:")
         else
           message <- error_of result "Error running audit" ;;
           showNotification message "error")
        (fun error =>
           emit (ConsoleError "Error running audit:" error) ;;
           showNotification "Error running audit" "error")
        hideLoading
  end.

Definition refreshData : M unit :=
  loadWebsites ;;
  current <- gets currentWebsiteId ;;
  match truthy current with
  | Some websiteId => loadWebsiteMetrics websiteId
  | None => ret tt
  end ;;
  showNotification "Data refreshed!" "success".

(** The [change] listener of the date-range control. *)
Definition onDateRangeChange : M unit :=
  current <- gets currentWebsiteId ;;
  match truthy current with
  | Some websiteId => loadWebsiteMetrics websiteId
  | None => ret tt
  end.

(** The [DOMContentLoaded] listener: [loadWebsites()], then the listeners
    are registered. *)
Definition onDOMContentLoaded : M unit := loadWebsites.

(** The code of an [onclick] attribute, run. *)
Definition click (h : Handler) : M unit :=
  match h with
  | CallSelectWebsite websiteId websiteName =>
      selectWebsite websiteId websiteName
  | CallDeleteWebsite websiteId => deleteWebsite websiteId
  | CallShowAddWebsiteModal => showAddWebsiteModal
  end.

(** What the user can do on the page. [ClickGrid h] is a click on an element
    of the grid whose [onclick] attribute is the call [h]. An attribute whose
    code is not such a call, as a name with an apostrophe leaves it, gives
    no action here. *)
Inductive Action :=
| PageLoad
| ClickGrid (h : Handler)
| SubmitAddWebsite (name url : string)
| ChangeDateRange (days : string)
| ClickRunAudit
| ClickRefresh
| ClickAddWebsite
| DismissModal.

Definition perform (a : Action) : M unit :=
  match a with
  | PageLoad => onDOMContentLoaded
  | ClickGrid h => click h
  | SubmitAddWebsite name url =>
      type_value "website-name" name ;;
      type_value "website-url" url ;;
      handleAddWebsite
  | ChangeDateRange days =>
      type_value "date-range" days ;;
      onDateRangeChange
  | ClickRunAudit => runAudit
  | ClickRefresh => refreshData
  | ClickAddWebsite => showAddWebsiteModal
  | DismissModal => hideAddWebsiteModal
  end.

(** A session: the actions one after the other, each handler run to
    completion. *)
Definition session (actions : list Action) (s : State) : State :=
  fold_left (fun s a => exec (perform a) s) actions s.

End Controller.

(** ** Observations on a state *)

Local Open Scope Z_scope.





(** The website a top-level element of the grid selects when clicked. *)
Definition card_id (h : html) : option Z :=
  match h with
  | Elem _ _ (Some (CallSelectWebsite websiteId _)) _ => Some websiteId
  | _ => None
  end.

(** The identifiers of the last website list rendered: the cards in the
    grid. *)
Definition listed_ids (s : State) : list Z := omap card_id (websites_grid s).

(** The selection, when there is one, is among the listed websites. *)
Definition selection_listed (s : State) : Prop :=
  forall i, currentWebsiteId s = Some i -> In i (listed_ids s).

(** The requests sent, oldest first. *)
Definition requests (l : list Event) : list Request :=
  omap (fun e => match e with Fetch r => Some r | _ => None end) l.

(** The notifications shown, oldest first. *)
Definition notifications (l : list Event) : list (string * string) :=
  omap (fun e => match e with
                 | Notification m t => Some (m, t)
                 | _ => None
                 end) l.

Definition is_chart_event (e : Event) : bool :=
  match e with
  | ChartNew _ | ChartDestroy _ => true
  | _ => false
  end.

(** The chart events, oldest first. *)
Definition chart_events (l : list Event) : list Event :=
  List.filter is_chart_event l.

(** Writes of the [display] style of one element, oldest first. *)
Definition display_writes (element : string) (l : list Event) : list string :=
  omap (fun e => match e with
                 | SetDisplay el v =>
                     if String.eqb el element then Some v else None
                 | _ => None
                 end) l.

(** Every live chart instance is the one [performanceChart] refers to. *)
Definition chart_owned (s : State) : Prop :=
  forall c config,
    instances s !! c = Some config -> performanceChart s = Some c.

(** ** Requests of the controller and the replies it receives *)

Definition list_request : Request := mkRequest GET "/api/websites" None.

Definition metrics_request (websiteId : Z) (days : string) : Request :=
  mkRequest GET
    ("/api/websites/" +:+ pretty websiteId +:+ "/metrics?days=" +:+ days) None.

Definition delete_request (websiteId : Z) : Request :=
  mkRequest DELETE ("/api/websites/" +:+ pretty websiteId) None.

Definition audit_request (websiteId : Z) : Request :=
  mkRequest POST ("/api/websites/" +:+ pretty websiteId +:+ "/audit") None.

(** The reply [loadWebsites] receives when it is called in [s]. *)
Definition list_reply (host : Host) (s : State) : FetchOutcome Website.t :=
  websites_reply host (log (exec showLoading s)) list_request.

(** The user's answer when [deleteWebsite] is called in [s]. *)
Definition delete_confirmed (host : Host) (s : State) : bool :=
  confirm host (log s) delete_prompt.

(** The reply to the DELETE request of [deleteWebsite websiteId] called in
    [s], once confirmed. *)
Definition delete_reply (host : Host) (websiteId : Z) (s : State)
  : FetchOutcome unit :=
  command_reply host
    (log (exec (confirm_dialog host delete_prompt ;; showLoading) s))
    (delete_request websiteId).



(** The state in which [selectWebsite websiteId websiteName], called in [s],
    starts loading the metrics. *)
Definition selecting (websiteId : Z) (websiteName : string) (s : State)
  : State :=
  exec (modify (set_currentWebsiteId (Some websiteId)) ;;
        put_textContent "selected-website-name"
          (websiteName +:+ " - Metrics") ;;
        style_display "metrics-section" "block" ;;
        emit (ScrollIntoView "metrics-section")) s.

(** The loading overlay is hidden in [s], and hiding it was the last thing
    done. *)
Definition overlay_released (s : State) : Prop :=
  display s !! "loading-overlay" = Some "none"
  /\ last (log s) = Some (SetDisplay "loading-overlay" "none").

(** ** Chart instances along a trace *)

(** The live chart instances after one more event. *)
Definition chart_step (live : list nat) (e : Event) : list nat :=
  match e with
  | ChartNew c => c :: live
  | ChartDestroy c => List.filter (fun x => negb (x =? c)%nat) live
  | _ => live
  end.

(** The live chart instances after the events of [l], from none. *)
Definition live_at (l : list Event) : list nat := fold_left chart_step l [].

(** Between two handlers: no chart at all, or exactly the one that
    [performanceChart] refers to; and never more than one along the trace. *)
Definition chart_inv (s : State) : Prop :=
  (forall p, p `prefix_of` log s -> (length (live_at p) <= 1)%nat)
  /\ ((instances s = ∅ /\ live_at (log s) = [])
      \/ (exists c config,
            performanceChart s = Some c
            /\ instances s = {[c := config]}
            /\ live_at (log s) = [c])).

(** ** Relations between the state before and after a call *)

(** [c] takes every state to an [R]-related one, however it ends. *)
Definition keeps {A} (R : relation State) (c : M A) : Prop :=
  forall s, R s (snd (c s)).

(** The observation [f] is unchanged. *)
Definition same {X} (f : State -> X) : relation State :=
  fun s s' => f s' = f s.

(** The invariant [P] is preserved. *)
Definition preserved (P : State -> Prop) : relation State :=
  fun s s' => P s -> P s'.

(** ** Sample data and hosts *)

Local Open Scope float_scope.

(** The two samples of the scenario of the specification. *)
Definition scenario_metrics : list Metric.t :=
  [ Metric.mk "2024-01-01" 10 100 5.5;
    Metric.mk "2024-01-02" 20 300 4.5 ].

Definition acme : Website.t :=
  Website.mk 1 "Acme" "acme.com" true (Some "2024-01-01").

Definition beta : Website.t := Website.mk 2 "Beta" "beta.org" false None.

Definition zero : Website.t := Website.mk 0 "Zero" "zero.net" true None.

(** Whether a DELETE request for the website was sent in the trace. *)
Definition deleted (l : list Event) (website : Website.t) : bool :=
  existsb (fun e => match e with
                    | Fetch (mkRequest DELETE p _) =>
                        String.eqb p ("/api/websites/"
                                      +:+ pretty (Website.id website))
                    | _ => false
                    end) l.

(** A browser that renders numbers without digit grouping and dates as they
    are, with a user who confirms every dialog, in front of a server that
    lists [sites l], answers every metrics request with the scenario samples
    and accepts every POST and DELETE. The names and URLs of its websites
    are meant to be plain text: the parser is given no other markup. *)
Definition online (sites : list Event -> list Website.t) : Host :=
  mkHost (fun l _ => Response true (Array (sites l)))
    (fun _ _ => Response true (Array scenario_metrics))
    (fun _ _ => Response true (Other false None))
    (fun _ _ => true)
    (Number.toFixed (fun _ => "") 0) (fun d => d) (fun _ => "")
    (fun _ => []).

(** Acme and Beta, until deleted by this client. *)
Definition shop_host : Host :=
  online (fun l => List.filter (fun w => negb (deleted l w)) [acme; beta]).


(** A server whose only website has the identifier 0. *)
Definition zero_host : Host := online (fun _ => [zero]).

(** The same browser and user with the server down: every request is
    rejected. *)
Definition offline_host : Host :=
  mkHost (fun _ _ => Rejected) (fun _ _ => Rejected) (fun _ _ => Rejected)
    (fun _ _ => true)
    (Number.toFixed (fun _ => "") 0) (fun d => d) (fun _ => "")
    (fun _ => []).




(** The page as loaded: the date-range control on 30 days. *)
Definition page : gmap string string := {[ "date-range" := "30" ]}.

(** The shop's page loaded, then the card of Acme clicked. *)
Definition acme_selected : State :=
  session shop_host [PageLoad; ClickGrid (CallSelectWebsite 1 "Acme")]
    (initial page).


(** The page of the server with website 0 loaded, then its card clicked. *)
Definition zero_selected : State :=
  session zero_host [PageLoad; ClickGrid (CallSelectWebsite 0 "Zero")]
    (initial page).


(** ** Further observations: handlers, replies, outcomes *)

(** The [onclick] handlers in a tree, in document order. *)
Fixpoint handlers (h : html) : list Handler :=
  match h with
  | Text _ => []
  | Elem _ _ onclick children =>
      match onclick with
      | Some c => [c]
      | None => []
      end ++ flat_map handlers children
  end.

(** The value of a form control of the page. *)
Definition form_value (s : State) (element : string) : string :=
  default "" (input_value s !! element).

Definition add_request (name url : string) : Request :=
  mkRequest POST "/api/websites" (Some (name, url)).

(** The reply [loadWebsiteMetrics websiteId] receives when called in [s]. *)
Definition metrics_reply_in (host : Host) (websiteId : Z) (s : State)
  : FetchOutcome Metric.t :=
  metrics_reply host (log (exec showLoading s))
    (metrics_request websiteId (form_value s "date-range")).

(** The reply [handleAddWebsite] receives when called in [s]. *)
Definition add_reply (host : Host) (s : State) : FetchOutcome unit :=
  command_reply host (log (exec (emit PreventDefault ;; showLoading) s))
    (add_request (form_value s "website-name") (form_value s "website-url")).

(** The reply [runAudit] receives for [websiteId] when called in [s]. *)
Definition audit_reply (host : Host) (websiteId : Z) (s : State)
  : FetchOutcome unit :=
  command_reply host (log (exec showLoading s)) (audit_request websiteId).

(** The configuration [updateChart] passes to [new Chart]. *)
Definition chart_of (host : Host) (metrics : list Metric.t) : ChartConfig :=
  mkChartConfig
    (map (fun m => toLocaleDateString host (Metric.date m)) metrics)
    (map Metric.clicks metrics)
    (map Metric.impressions metrics)
    (map Metric.position metrics).

(** The two handlers of the card of a website: the card's own and the one
    of its delete button. *)
Definition card_handlers (website : Website.t) : list Handler :=
  [ CallSelectWebsite (Website.id website) (Website.name website);
    CallDeleteWebsite (Website.id website) ].

(** The console messages, oldest first: [inl] for [console.error], [inr]
    for [console.log]. *)
Definition console (l : list Event) : list (string * Exn + string) :=
  omap (fun e => match e with
                 | ConsoleError label e => Some (inl (label, e))
                 | ConsoleLog label => Some (inr label)
                 | _ => None
                 end) l.

(** [c] ends normally from every state: no exception escapes it. *)
Definition returns {A} (c : M A) : Prop :=
  forall s, exists a, fst (c s) = Ret a.

(** The loading overlay is visible. *)
Definition overlay_shown (s : State) : Prop :=
  display s !! "loading-overlay" = Some "flex".

(** A call that leaves the loading overlay hidden, or as it found it. *)
Definition overlay_settled : relation State := fun s s' =>
  display s' !! "loading-overlay" = Some "none"
  \/ display s' !! "loading-overlay" = display s !! "loading-overlay".

(** The actions that run [selectWebsite] or [deleteWebsite]. *)
Definition selects_or_deletes (a : Action) : bool :=
  match a with
  | ClickGrid (CallSelectWebsite _ _) | ClickGrid (CallDeleteWebsite _) => true
  | _ => false
  end.

(** The actions that can run [loadWebsiteMetrics]. *)
Definition loads_metrics (a : Action) : bool :=
  match a with
  | ClickGrid (CallSelectWebsite _ _) | ChangeDateRange _ | ClickRefresh => true
  | _ => false
  end.

(** The actions that can run [loadWebsites]. *)
Definition loads_websites (a : Action) : bool :=
  match a with
  | PageLoad | ClickGrid (CallDeleteWebsite _) | SubmitAddWebsite _ _
  | ClickRefresh => true
  | _ => false
  end.

(** ** A server with this script as its only client *)

(** Whether a DELETE request for the website was sent in the trace. *)
Definition delete_sent (l : list Event) (websiteId : Z) : bool :=
  existsb (fun e => match e with
                    | Fetch (mkRequest DELETE p _) =>
                        String.eqb p ("/api/websites/" +:+ pretty websiteId)
                    | _ => false
                    end) l.

(** The server answers every list request with a list, of websites whose
    names and URLs are plain text, and confirms every deletion; a website it
    has listed stays in its lists until this script asks for its deletion,
    and is in none afterwards. *)
Record sole_client (host : Host) : Prop := mk_sole_client
  { lists_always :
      forall l, exists ok websites,
        websites_reply host l list_request = Response ok (Array websites);
    lists_plain :
      forall l ok websites,
        websites_reply host l list_request = Response ok (Array websites) ->
        Forall (fun website => plain_website website = true) websites;
    deletes_always :
      forall l websiteId, exists payload,
        command_reply host l (delete_request websiteId)
        = Response true payload;
    stays_listed :
      forall l0 l ok0 websites0 ok websites i,
        l0 `prefix_of` l ->
        websites_reply host l0 list_request = Response ok0 (Array websites0) ->
        websites_reply host l list_request = Response ok (Array websites) ->
        In i (map Website.id websites0) ->
        delete_sent l i = false ->
        In i (map Website.id websites);
    deleted_gone :
      forall l ok websites i,
        websites_reply host l list_request = Response ok (Array websites) ->
        In i (map Website.id websites) ->
        delete_sent l i = false }.

(** The user selects only websites that have a card in the grid. *)
Definition allowed (a : Action) (s : State) : Prop :=
  match a with
  | ClickGrid (CallSelectWebsite websiteId _) => In websiteId (listed_ids s)
  | _ => True
  end.

(** The states of the page in such a use. *)
Inductive reachable (host : Host) (page : gmap string string)
  : State -> Prop :=
| reachable_initial : reachable host page (initial page)
| reachable_step a s :
    reachable host page s -> allowed a s ->
    reachable host page (exec (perform host a) s).

(** The grid shows nothing yet, or a list that the server has sent. *)
Definition grid_from_server (host : Host) (s : State) : Prop :=
  listed_ids s = []
  \/ exists l0 ok websites,
       l0 `prefix_of` log s
       /\ websites_reply host l0 list_request = Response ok (Array websites)
       /\ listed_ids s = map Website.id websites.

(** The selection is listed; no deletion was asked for a listed website,
    other than those in [pending]; the grid is the server's. *)
Definition consistent (host : Host) (pending : Z -> Prop) (s : State)
  : Prop :=
  selection_listed s
  /\ (forall i, In i (listed_ids s) -> ~ pending i ->
                delete_sent (log s) i = false)
  /\ grid_from_server host s.

(** A call that changes neither the selection nor the grid, and sends no
    DELETE request. *)
Definition harmless : relation State := fun s s' =>
  currentWebsiteId s' = currentWebsiteId s
  /\ websites_grid s' = websites_grid s
  /\ log s `prefix_of` log s'
  /\ forall i, delete_sent (log s') i = delete_sent (log s) i.

(** The page is consistent and no deletion is pending. *)
Definition settled (host : Host) : State -> Prop :=
  consistent host (fun _ => False).

(** * Properties *)

Local Close Scope float_scope.
Local Close Scope Z_scope.

(** ** Reading back the digits of [toFixed] *)

Section Digits.
Import Number.
Local Open Scope Z_scope.

Lemma append_cons c a b : String c a +:+ b = String c (a +:+ b).
Proof. reflexivity. Qed.

Lemma append_nil_r s : s +:+ "" = s.
Proof.
  induction s as [|c s IH]; [reflexivity|]. by rewrite append_cons, IH.
Qed.

Lemma append_assoc a b c : (a +:+ b) +:+ c = a +:+ b +:+ c.
Proof.
  induction a as [|x a IH]; [reflexivity|]. by rewrite !append_cons, IH.
Qed.

Lemma length_append a b :
  String.length (a +:+ b) = (String.length a + String.length b)%nat.
Proof.
  induction a as [|x a IH]; [reflexivity|].
  rewrite append_cons. cbn [String.length]. by rewrite IH.
Qed.

Lemma take_drop k s : take k s +:+ drop k s = s.
Proof.
  revert s. induction k as [|k IH]; intros [|c s]; try reflexivity.
  cbn [take drop]. by rewrite append_cons, IH.
Qed.

Lemma length_drop k s : String.length (drop k s) = (String.length s - k)%nat.
Proof.
  revert s. induction k as [|k IH]; intros [|c s]; cbn; try reflexivity.
  apply IH.
Qed.

Lemma pretty_N_char_digit x :
  (x < 10)%N ->
  digit_value (pretty_N_char x) = Some (Z.of_N x)
  /\ Ascii.eqb (pretty_N_char x) "." = false.
Proof.
  intros Hx.
  assert (x = 0 \/ x = 1 \/ x = 2 \/ x = 3 \/ x = 4 \/ x = 5 \/ x = 6
          \/ x = 7 \/ x = 8 \/ x = 9)%N as H by lia.
  repeat destruct H as [->|H]; try subst x; split; reflexivity.
Qed.

Lemma digits_value_append a b acc :
  digits_value (a +:+ b) acc = digits_value a acc ≫= digits_value b.
Proof.
  revert acc. induction a as [|c a IH]; intros acc; [reflexivity|].
  rewrite append_cons. cbn [digits_value].
  destruct (digit_value c); [apply IH | reflexivity].
Qed.

Lemma pretty_N_go_append x s : pretty_N_go x s = pretty_N_go x "" +:+ s.
Proof.
  revert s. induction (N.lt_wf_0 x) as [x _ IH]; intros s.
  destruct (N.eq_dec x 0%N) as [->|Hx]; [by rewrite !pretty_N_go_0|].
  rewrite (pretty_N_go_step x s), (pretty_N_go_step x "") by lia.
  assert (Hlt : (x `div` 10 < x)%N) by (apply N.div_lt; lia).
  rewrite (IH _ Hlt (String _ s)), (IH _ Hlt (String _ "")).
  by rewrite append_assoc.
Qed.

Lemma digits_value_pretty_N x :
  digits_value (pretty_N_go x "") 0 = Some (Z.of_N x).
Proof.
  induction (N.lt_wf_0 x) as [x _ IH].
  destruct (N.eq_dec x 0%N) as [->|Hx]; [by rewrite pretty_N_go_0|].
  rewrite pretty_N_go_step, pretty_N_go_append by lia.
  rewrite digits_value_append, IH by (apply N.div_lt; lia).
  cbn [mbind option_bind digits_value].
  destruct (pretty_N_char_digit (x `mod` 10)) as [-> _].
  { apply N.mod_lt. lia. }
  f_equal. rewrite <- N2Z.inj_mul with (n := 10%N), <- N2Z.inj_add.
  f_equal. symmetry. apply N.div_mod. lia.
Qed.

Lemma digits_value_zeros k s :
  digits_value (zeros k +:+ s) 0 = digits_value s 0.
Proof.
  induction k as [|k IH]; [reflexivity|].
  cbn [zeros]. rewrite append_cons. exact IH.
Qed.

Lemma length_zeros k : String.length (zeros k) = k.
Proof. induction k as [|k IH]; cbn; congruence. Qed.

(** The digits of a non-negative integer spell it. *)
Lemma digits_value_pretty n :
  0 <= n ->
  digits_value (if n =? 0 then "0" else pretty n) 0 = Some n.
Proof.
  intros Hn. destruct n as [|p|p]; [reflexivity| |lia].
  cbn [Z.eqb].
  unfold pretty, pretty_Z, pretty, pretty_positive, pretty, pretty_N.
  destruct (decide (N.pos p = 0%N)) as [?|_]; [discriminate|].
  apply (digits_value_pretty_N (N.pos p)).
Qed.

(** Digits before the point, then the point, then digits: the integer and
    the count of decimals. *)
Lemma read_fixed_digits s acc decimals v :
  digits_value s acc = Some v ->
  forall rest,
    read_fixed (s +:+ rest) acc decimals
    = read_fixed rest v ((fun k => k + String.length s)%nat <$> decimals).
Proof.
  revert acc decimals.
  induction s as [|c s IH]; intros acc decimals; cbn [digits_value].
  - intros [= <-] rest. cbn [String.length]. f_equal.
    destruct decimals; cbn; f_equal; lia.
  - destruct (digit_value c) as [d|] eqn:Hd; [|discriminate].
    intros Hv rest. rewrite append_cons. cbn [read_fixed].
    assert (Hdot : Ascii.eqb c "." = false).
    { destruct (Ascii.eqb_spec c ".") as [->|]; [discriminate Hd|reflexivity]. }
    rewrite Hdot, Hd, (IH _ (S <$> decimals) Hv). f_equal.
    destruct decimals; cbn; f_equal; lia.
Qed.

(** [fixed_digits f n] is the decimal numeral of n / 10^f with exactly [f]
    decimals. *)
Lemma read_fixed_fixed_digits f n :
  0 <= n -> read_fixed (fixed_digits f n) 0 None = Some (n, f).
Proof.
  intros Hn. pose proof (digits_value_pretty n Hn) as Hm.
  unfold fixed_digits. set (m := if n =? 0 then "0" else pretty n) in *.
  destruct f as [|f].
  - rewrite <- (append_nil_r m), (read_fixed_digits m 0 None n Hm). reflexivity.
  - set (k := String.length m).
    set (m' := if (k <=? S f)%nat then zeros (S f + 1 - k) +:+ m else m).
    assert (Hm' : digits_value m' 0 = Some n).
    { subst m'.
      destruct (k <=? S f)%nat; [by rewrite digits_value_zeros|done]. }
    assert (Hlen : (S f < String.length m')%nat).
    { subst m'. destruct (Nat.leb_spec k (S f)) as [Hle|Hgt]; [|exact Hgt].
      rewrite length_append, length_zeros. fold k. lia. }
    set (j := (String.length m' - S f)%nat).
    rewrite <- (take_drop j m'), digits_value_append in Hm'.
    destruct (digits_value (take j m') 0) as [va|] eqn:Ha; [|discriminate].
    cbn in Hm'.
    rewrite (read_fixed_digits _ 0 None va Ha).
    rewrite append_cons.
    cbn [read_fixed Ascii.eqb Bool.eqb fmap option_fmap option_map].
    change ("" +:+ drop j m') with (drop j m').
    rewrite <- (append_nil_r (drop j m')).
    rewrite (read_fixed_digits _ va (Some 0%nat) n Hm'). cbn.
    do 2 f_equal. rewrite length_drop. lia.
Qed.
End Digits.

(** ** Rounding in [toFixed] *)

Section Rounding.
Import Number.
Local Open Scope Z_scope.

Lemma pow10_pos f : 0 < pow10 f.
Proof. unfold pow10. apply Z.pow_pos_nonneg; lia. Qed.

Lemma nearest_scaled_bounds f m e :
  e < 0 ->
  let d := 2 ^ (- e) in
  let n := nearest_scaled f m e in
  - d <= 2 * (n * d - Z.pos m * pow10 f) <= d.
Proof.
  intros He d n. subst n. unfold nearest_scaled.
  destruct (Z.leb_spec 0 e) as [?|_]; [lia|]. fold d.
  assert (Hd : 0 < d) by (apply Z.pow_pos_nonneg; lia).
  set (a := Z.pos m * pow10 f).
  pose proof (Z.mul_div_le (2 * a + d) (2 * d) ltac:(lia)) as Hlo.
  pose proof (Z.mul_succ_div_gt (2 * a + d) (2 * d) ltac:(lia)) as Hhi.
  nia.
Qed.

Lemma nearest_scaled_nonneg f m e : 0 <= nearest_scaled f m e.
Proof.
  pose proof (pow10_pos f) as Hp. unfold nearest_scaled.
  destruct (Z.leb_spec 0 e) as [He|He].
  - assert (0 < 2 ^ e) by (apply Z.pow_pos_nonneg; lia). nia.
  - assert (0 < 2 ^ (- e)) by (apply Z.pow_pos_nonneg; lia).
    apply Z.div_pos; nia.
Qed.

Lemma magnitude_pos m e : (0 < magnitude m e)%Q.
Proof.
  unfold magnitude. destruct (Z.leb_spec 0 e) as [He|He].
  - assert (0 < 2 ^ e) by (apply Z.pow_pos_nonneg; lia).
    unfold Qlt; simpl. nia.
  - unfold Qlt; simpl. lia.
Qed.

Lemma nearest_scaled_nearest f m e :
  (Qabs (inject_Z (nearest_scaled f m e)
         - magnitude m e * inject_Z (pow10 f)) <= 1 # 2)%Q.
Proof.
  apply Qabs_Qle_condition. unfold magnitude.
  destruct (Z.leb_spec 0 e) as [He|He].
  - unfold nearest_scaled. destruct (Z.leb_spec 0 e) as [_|?]; [|lia].
    rewrite <- inject_Z_mult.
    unfold Qminus. rewrite <- inject_Z_opp, <- inject_Z_plus.
    replace (_ + - _) with 0 by lia.
    split; unfold Qle; simpl; lia.
  - pose proof (nearest_scaled_bounds f m e He) as Hb. cbv zeta in Hb.
    assert (Hd : 0 < 2 ^ (- e)) by (apply Z.pow_pos_nonneg; lia).
    set (d := 2 ^ (- e)) in *. set (n := nearest_scaled f m e) in *.
    split; unfold Qle, Qminus, Qplus, Qopp, Qmult, inject_Z; simpl;
      rewrite ?Pos.mul_1_r, ?Z2Pos.id by lia; nia.
Qed.

Lemma toFixed_nearest sd f x q :
  value_of x = Some q ->
  PrimFloat.leb 1e21 (PrimFloat.abs x) = false ->
  exists n : Z,
    toFixed sd f x = (if Qle_bool 0 q then "" else "-") +:+ fixed_digits f n
    /\ read_fixed (fixed_digits f n) 0 None = Some (n, f)
    /\ (Qabs (inject_Z n - Qabs q * inject_Z (pow10 f)) <= 1 # 2)%Q.
Proof.
  unfold value_of, toFixed. intros Hq Hbig.
  destruct (Prim2SF x) as [z| | |sg m e]; try discriminate.
  - injection Hq as <-. exists 0. split; [reflexivity|].
    split; [apply read_fixed_fixed_digits; lia|]. vm_compute. discriminate.
  - rewrite Hbig. injection Hq as <-.
    exists (nearest_scaled f m e).
    pose proof (read_fixed_fixed_digits f _ (nearest_scaled_nonneg f m e))
      as Hread.
    pose proof (magnitude_pos m e) as Hpos.
    pose proof (nearest_scaled_nearest f m e) as Hn.
    destruct sg.
    + split; [|split; [exact Hread|]].
      * destruct (Qle_bool 0 (- magnitude m e)) eqn:E; [|reflexivity].
        apply Qle_bool_iff in E. exfalso.
        apply (Qlt_not_le _ _ Hpos).
        apply Qopp_le_compat in E. rewrite Qopp_opp in E. exact E.
      * assert (E : (Qabs (- magnitude m e) == magnitude m e)%Q).
        { rewrite Qabs_opp. apply Qabs_pos, Qlt_le_weak, Hpos. }
        rewrite E. exact Hn.
    + split; [|split; [exact Hread|]].
      * destruct (Qle_bool 0 (magnitude m e)) eqn:E; [reflexivity|].
        exfalso. apply Qlt_le_weak, Qle_bool_iff in Hpos. congruence.
      * assert (E : (Qabs (magnitude m e) == magnitude m e)%Q).
        { apply Qabs_pos, Qlt_le_weak, Hpos. }
        rewrite E. exact Hn.
Qed.
End Rounding.

(** ** Running the monad *)

(** Runs the monad and the primitive effects, leaving the states as
    successive writes on the initial one. *)
Ltac unfold_m :=
  cbv beta iota zeta delta
    [exec bind ret throw gets modify try_catch_finally emit style_display
     put_textContent get_value type_value put_grid json fetch confirm_dialog
     showLoading hideLoading showNotification destroy new_Chart get_field
     error_of fst snd].

(** Reads a field off a state written as successive writes. *)
Tactic Notation "proj" :=
  cbn [currentWebsiteId performanceChart textContent display input_value
       websites_grid instances chart_count log record set_currentWebsiteId
       set_performanceChart set_textContent set_display set_input_value
       set_websites_grid set_instances].

Tactic Notation "proj" "in" hyp(H) :=
  cbn [currentWebsiteId performanceChart textContent display input_value
       websites_grid instances chart_count log record set_currentWebsiteId
       set_performanceChart set_textContent set_display set_input_value
       set_websites_grid set_instances] in H.

(** Lookups in a map built by successive writes. *)
Ltac lookups :=
  repeat first [ rewrite lookup_insert_eq
               | rewrite lookup_insert_ne by discriminate ].

(** ** Integers in doubles

    The double of an integer below 2^53 is the integer, and such doubles add
    without rounding while the sum stays below 2^53. *)

Section Integers.
Local Open Scope Z_scope.

Lemma iter_pos_nat {A} (f : A -> A) n x :
  SpecFloat.iter_pos f n x = Nat.iter (Pos.to_nat n) f x.
Proof.
  revert x. induction n as [n IH|n IH|]; intros x; cbn [SpecFloat.iter_pos].
  - rewrite !IH, Pos2Nat.inj_xI, <- Nat.iter_add, Nat.iter_succ_r.
    f_equal. lia.
  - rewrite !IH, Pos2Nat.inj_xO, <- Nat.iter_add. f_equal. lia.
  - reflexivity.
Qed.

Lemma Pos_iter_nat {A} (f : A -> A) n x :
  Pos.iter f x n = Nat.iter (Pos.to_nat n) f x.
Proof. apply Pos2Nat.inj_iter. Qed.

Lemma digits2_iter k v :
  Z.pos (digits2_pos (Nat.iter k xO v)) = Z.pos (digits2_pos v) + Z.of_nat k.
Proof.
  induction k as [|k IH]; [cbn; lia|].
  rewrite Nat.iter_succ. cbn [digits2_pos]. rewrite Pos2Z.inj_succ, IH. lia.
Qed.

Lemma iter_xO_value k v : Z.pos (Nat.iter k xO v) = Z.pos v * 2 ^ Z.of_nat k.
Proof.
  induction k as [|k IH]; [cbn; lia|].
  rewrite Nat.iter_succ, Pos2Z.inj_xO, IH, Nat2Z.inj_succ, Z.pow_succ_r by lia.
  lia.
Qed.

Lemma shr_exact k m :
  Nat.iter k shr_1 (Build_shr_record (Z.pos (Nat.iter k xO m)) false false)
  = Build_shr_record (Z.pos m) false false.
Proof.
  induction k as [|k IH]; [reflexivity|].
  rewrite Nat.iter_succ_r, Nat.iter_succ. cbn [shr_1 orb]. exact IH.
Qed.

Lemma shr_exact_pos n e m :
  shr (Build_shr_record (Z.pos (Nat.iter n xO m)) false false) e (Z.of_nat n)
  = (Build_shr_record (Z.pos m) false false, e + Z.of_nat n).
Proof.
  destruct n as [|n]; [change (Z.of_nat 0) with 0; by rewrite Z.add_0_r|].
  unfold shr. destruct (Z.of_nat (S n)) as [|p|p] eqn:Hp; try lia.
  rewrite iter_pos_nat. replace (Pos.to_nat p) with (S n) by lia.
  by rewrite shr_exact.
Qed.

(** Rounding a 53-bit mantissa followed by [n] zero bits is exact. *)
Lemma binary_round_aux_exact m n e :
  Z.pos (digits2_pos m) = 53 ->
  -1074 <= e -> e + Z.of_nat n <= 971 ->
  binary_round_aux prec emax false (Z.pos (Nat.iter n xO m)) e loc_Exact
  = S754_finite false m (e + Z.of_nat n).
Proof.
  intros Hd Hmin Hmax. unfold binary_round_aux, shr_fexp.
  cbn [Zdigits2 shr_record_of_loc]. rewrite digits2_iter, Hd.
  replace (fexp prec emax (53 + Z.of_nat n + e) - e) with (Z.of_nat n)
    by (unfold fexp, emin, prec, emax; lia).
  rewrite shr_exact_pos.
  cbn [shr_m loc_of_shr_record round_nearest_even Zdigits2 shr_record_of_loc].
  rewrite Hd.
  replace (fexp prec emax (53 + (e + Z.of_nat n)) - (e + Z.of_nat n)) with 0
    by (unfold fexp, emin, prec, emax; lia).
  cbn [shr shr_m].
  replace (e + Z.of_nat n <=? emax - prec) with true
    by (symmetry; apply Z.leb_le; unfold prec, emax; lia).
  reflexivity.
Qed.

Lemma binary_round_aux_same m e :
  Z.pos (digits2_pos m) = 53 ->
  -1074 <= e <= 971 ->
  binary_round_aux prec emax false (Z.pos m) e loc_Exact
  = S754_finite false m e.
Proof.
  intros Hd He.
  pose proof (binary_round_aux_exact m 0 e Hd) as H.
  change (Z.of_nat 0) with 0 in H. rewrite Z.add_0_r in H.
  apply H; lia.
Qed.

(** Normalising an integer of at most 53 bits, given with [j] more zero
    bits and the exponent [-j]. *)
Lemma binary_normalize_exact v j :
  Z.pos (digits2_pos v) <= 53 -> (j <= 1074)%nat ->
  binary_normalize prec emax (Z.pos (Nat.iter j xO v)) (- Z.of_nat j) false
  = Number.canonical v.
Proof.
  intros Hd Hj. unfold binary_normalize, binary_round, Number.canonical.
  set (t := (53 - Pos.to_nat (digits2_pos v))%nat).
  assert (Ht : Z.of_nat t = 53 - Z.pos (digits2_pos v)) by lia.
  assert (Hdt : Z.pos (digits2_pos (Nat.iter t xO v)) = 53)
    by (rewrite digits2_iter; lia).
  rewrite digits2_iter.
  replace (fexp prec emax (Z.pos (digits2_pos v) + Z.of_nat j + - Z.of_nat j))
    with (- Z.of_nat t) by (unfold fexp, emin, prec, emax; lia).
  unfold shl_align.
  destruct (- Z.of_nat t - - Z.of_nat j) as [|d|d] eqn:Hshift.
  - assert (j = t) by lia. subst j.
    apply binary_round_aux_same; [exact Hdt | lia].
  - replace (Nat.iter j xO v) with (Nat.iter (j - t) xO (Nat.iter t xO v))
      by (rewrite <- Nat.iter_add; f_equal; lia).
    rewrite (binary_round_aux_exact (Nat.iter t xO v) (j - t)
               (- Z.of_nat j)) by (exact Hdt || lia).
    f_equal. lia.
  - rewrite Pos_iter_nat, <- Nat.iter_add.
    replace (Pos.to_nat d + j)%nat with t by lia.
    apply binary_round_aux_same; [exact Hdt | lia].
Qed.

Lemma digits2_size p : digits2_pos p = Pos.size p.
Proof. induction p; cbn; congruence. Qed.

Lemma digits2_bound p : Z.pos p < 2 ^ 53 -> Z.pos (digits2_pos p) <= 53.
Proof.
  intros Hp. rewrite digits2_size.
  pose proof (Pos.size_le p) as Hle.
  assert (Hle' : 2 ^ Z.pos (Pos.size p) <= 2 * Z.pos p).
  { rewrite <- Pos2Z.inj_pow. exact Hle. }
  destruct (Z.le_gt_cases (Z.pos (Pos.size p)) 53) as [H|H]; [exact H|].
  assert (Hpow : 2 ^ 54 <= 2 ^ Z.pos (Pos.size p))
    by (apply Z.pow_le_mono_r; lia).
  change (2 ^ 54) with (2 * 2 ^ 53) in Hpow. lia.
Qed.

Lemma of_Z_exact z :
  0 <= z < 2 ^ 53 -> Prim2SF (Number.of_Z z) = Number.double_of z.
Proof.
  intros Hz. unfold Number.of_Z. rewrite of_uint63_spec, Uint63.of_Z_spec.
  rewrite Z.mod_small by (change wB with (2 ^ 63); lia).
  destruct z as [|v|v]; [reflexivity| |lia].
  apply (binary_normalize_exact v 0); [apply digits2_bound; lia | lia].
Qed.

Lemma shl_align_fst m e e' :
  e' <= e ->
  fst (shl_align m e e') = Nat.iter (Z.to_nat (e - e')) xO m.
Proof.
  intros He. unfold shl_align.
  destruct (e' - e) as [|d|d] eqn:Hd; try lia.
  - replace (e - e') with 0 by lia. reflexivity.
  - cbn [fst]. rewrite Pos_iter_nat. f_equal. lia.
Qed.

Lemma double_of_add a b :
  0 <= a -> 0 <= b -> a + b < 2 ^ 53 ->
  SF64add (Number.double_of a) (Number.double_of b)
  = Number.double_of (a + b).
Proof.
  intros Ha Hb Hsum.
  destruct a as [|a|a]; [|destruct b as [|b|b]|]; try lia.
  - by destruct b.
  - reflexivity.
  - cbn [Number.double_of Z.add].
    unfold Number.canonical at 1 2, SF64add, SFadd.
    set (ta := (53 - Pos.to_nat (digits2_pos a))%nat).
    set (tb := (53 - Pos.to_nat (digits2_pos b))%nat).
    pose proof (digits2_bound a ltac:(lia)) as Hda.
    pose proof (digits2_bound b ltac:(lia)) as Hdb.
    cbv zeta. set (ez := Z.min (- Z.of_nat ta) (- Z.of_nat tb)).
    rewrite !shl_align_fst by lia. cbn [cond_Zopp].
    set (j := Nat.max ta tb).
    assert (Hez : ez = - Z.of_nat j) by lia.
    rewrite <- !Nat.iter_add.
    replace (Z.to_nat (- Z.of_nat ta - ez) + ta)%nat with j by lia.
    replace (Z.to_nat (- Z.of_nat tb - ez) + tb)%nat with j by lia.
    replace (Z.pos (Nat.iter j xO a) + Z.pos (Nat.iter j xO b))
      with (Z.pos (Nat.iter j xO (a + b)%positive)).
    + rewrite Hez. apply binary_normalize_exact; [|lia].
      apply digits2_bound. lia.
    + rewrite !iter_xO_value, Pos2Z.inj_add. ring.
Qed.

Lemma of_Z_add a b :
  0 <= a -> 0 <= b -> a + b < 2 ^ 53 ->
  (Number.of_Z a + Number.of_Z b)%float = Number.of_Z (a + b).
Proof.
  intros Ha Hb Hsum. apply Prim2SF_inj.
  rewrite FloatAxioms.add_spec, !of_Z_exact by lia.
  by apply double_of_add.
Qed.

(** The double of an integer from 0 to 2^53 - 1 has the value of the
    integer. *)
Lemma of_Z_value z :
  0 <= z < 2 ^ 53 ->
  exists q, Number.value_of (Number.of_Z z) = Some q /\ (q == inject_Z z)%Q.
Proof.
  intros Hz. unfold Number.value_of. rewrite of_Z_exact by exact Hz.
  destruct z as [|v|v]; [by exists 0%Q| |lia].
  cbn [Number.double_of]. unfold Number.canonical. eexists.
  split; [reflexivity|].
  unfold Number.magnitude.
  set (t := (53 - Pos.to_nat (digits2_pos v))%nat).
  destruct (Z.leb_spec 0 (- Z.of_nat t)) as [Ht|Ht].
  - assert (t = 0%nat) by lia. subst t. rewrite H. cbn [Nat.iter Z.of_nat].
    change (- 0) with 0. rewrite Z.pow_0_r, Z.mul_1_r. reflexivity.
  - rewrite Z.opp_involutive. unfold Qeq. cbn [Qnum Qden inject_Z].
    rewrite iter_xO_value, Z2Pos.id by (apply Z.pow_pos_nonneg; lia). lia.
Qed.

(** Left-to-right summation of non-negative integers is exact in doubles
    as long as the total stays below 2^53. *)
Lemma fold_left_integers {A} (field : A -> Number.number) items counts acc :
  map field items = map Number.of_Z counts ->
  Forall (fun c => 0 <= c) counts ->
  0 <= acc -> acc + fold_right Z.add 0 counts < 2 ^ 53 ->
  fold_left (fun sum m => (sum + field m)%float) items (Number.of_Z acc)
  = Number.of_Z (acc + fold_right Z.add 0 counts).
Proof.
  revert counts acc.
  induction items as [|m items IH]; intros [|c counts] acc Hmap Hpos Hacc Hsum;
    try discriminate Hmap.
  - cbn. by rewrite Z.add_0_r.
  - injection Hmap as Hm Hmap. apply Forall_cons in Hpos as [Hc Hpos].
    cbn [fold_left fold_right] in *.
    assert (Hrest : 0 <= fold_right Z.add 0 counts).
    { clear -Hpos. induction Hpos; cbn; lia. }
    rewrite Hm, of_Z_add by lia.
    rewrite (IH counts (acc + c)) by (done || lia).
    f_equal. lia.
Qed.

End Integers.

Section Metrics.
Variable host : Host.
Local Open Scope float_scope.

Lemma displayMetrics_empty s :
  textContent (exec (displayMetrics host []) s)
  = <["avg-position" := "0"]>
      (<["avg-ctr" := "0%"]>
         (<["total-impressions" := "0"]>
            (<["total-clicks" := "0"]> (textContent s)))).
Proof. reflexivity. Qed.

Lemma displayMetrics_nonempty s metrics :
  metrics <> [] ->
  let totalClicks := reduce_sum Metric.clicks metrics in
  let totalImpressions := reduce_sum Metric.impressions metrics in
  textContent (exec (displayMetrics host metrics) s)
  = <["avg-position" :=
        toFixed host 1 (reduce_sum Metric.position metrics
                        / Number.of_nat (length metrics))]>
      (<["avg-ctr" :=
           ToString host
             (if 0 <? totalImpressions
              then VString
                     (toFixed host 2 (totalClicks / totalImpressions * 100))
              else VNumber 0) +:+ "%"]>
         (<["total-impressions" := toLocaleString host totalImpressions]>
            (<["total-clicks" := toLocaleString host totalClicks]>
               (textContent s)))).
Proof.
  intros Hne. destruct metrics as [|m metrics]; [congruence|]. reflexivity.
Qed.

Lemma zero_not_positive x : (x =? 0) = true -> (0 <? x) = false.
Proof.
  rewrite FloatAxioms.eqb_spec, FloatAxioms.ltb_spec.
  destruct (Prim2SF x) as [[]|[]| |[] ? ?]; vm_compute; congruence.
Qed.

Lemma reduce_sum_zeros field metrics :
  Forall (fun m => field m = 0) metrics -> reduce_sum field metrics = 0.
Proof.
  unfold reduce_sum. induction 1 as [|m metrics Hm _ IH]; [reflexivity|].
  cbn [fold_left]. rewrite Hm. exact IH.
Qed.

(** C1: for metrics with total impressions > 0 the average CTR shown is
    [(totalClicks / totalImpressions * 100).toFixed(2)] followed by "%", and
    that string carries an integer number of hundredths within one half of
    the exact value of the percentage (finite and below 10^21), that is, the
    percentage rounded to 2 decimal places; when total impressions is 0, in
    particular when every sample has 0 impressions, the text is "0%". *)
Theorem displayMetrics_avg_ctr s metrics :
  let totalClicks := reduce_sum Metric.clicks metrics in
  let totalImpressions := reduce_sum Metric.impressions metrics in
  let ctr := totalClicks / totalImpressions * 100 in
  let shown :=
    textContent (exec (displayMetrics host metrics) s) !! "avg-ctr" in
  ((0 <? totalImpressions) = true ->
     shown = Some (toFixed host 2 ctr +:+ "%")
     /\ forall q, Number.value_of ctr = Some q ->
          (1e21 <=? abs ctr) = false ->
          exists n : Z,
            toFixed host 2 ctr
            = (if Qle_bool 0 q then "" else "-") +:+ Number.fixed_digits 2 n
            /\ Number.read_fixed (Number.fixed_digits 2 n) 0 None
               = Some (n, 2%nat)
            /\ (Qabs (inject_Z n - Qabs q * 100) <= 1 # 2)%Q)
  /\ ((totalImpressions =? 0) = true -> shown = Some "0%")
  /\ (Forall (fun m => Metric.impressions m = 0) metrics -> shown = Some "0%").
Proof.
  intros totalClicks totalImpressions ctr shown.
  assert (Hzero : (0 <? totalImpressions) = false -> shown = Some "0%").
  { intros Hz. subst shown. destruct metrics as [|m metrics].
    - rewrite displayMetrics_empty. lookups. reflexivity.
    - rewrite displayMetrics_nonempty by discriminate. lookups.
      fold totalImpressions. rewrite Hz. reflexivity. }
  split; [|split].
  - intros Hpos. split.
    + subst shown. destruct metrics as [|m metrics]; [discriminate Hpos|].
      rewrite displayMetrics_nonempty by discriminate. lookups.
      fold totalImpressions totalClicks. rewrite Hpos. reflexivity.
    + intros q Hq Hbig.
      exact (toFixed_nearest (shortest_decimal host) 2 ctr q Hq Hbig).
  - intros Hz. apply Hzero, zero_not_positive, Hz.
  - intros Hall. apply Hzero. unfold totalImpressions.
    rewrite reduce_sum_zeros by exact Hall. reflexivity.
Qed.

(** C2: for the empty metrics array, [displayMetrics] sets the four summary
    fields to the literal texts "0", "0", "0%" and "0". *)
Theorem displayMetrics_no_samples s :
  let s' := exec (displayMetrics host []) s in
  textContent s' !! "total-clicks" = Some "0"
  /\ textContent s' !! "total-impressions" = Some "0"
  /\ textContent s' !! "avg-ctr" = Some "0%"
  /\ textContent s' !! "avg-position" = Some "0".
Proof.
  cbv zeta. rewrite displayMetrics_empty.
  repeat split; lookups; reflexivity.
Qed.

(** C3: for a non-empty metrics array the total clicks and total
    impressions shown are the sums of the fields, added from left to right
    in doubles and rendered by the browser's [toLocaleString]: for counts
    that are non-negative integers with a total below 2^53 that sum is the
    integer total, exactly. The average position shown is [toFixed(1)] of
    the double sum of the positions divided by the number of samples, which
    is exact as a double: an integer number of tenths within one half of the
    value of that quotient. For the two samples of the scenario the values
    shown are 30, 400, "7.50%" and "5.0". *)
Theorem displayMetrics_totals s metrics :
  let s' := exec (displayMetrics host metrics) s in
  let total field := fold_left (fun sum m => sum + field m) metrics 0 in
  let n := Z.of_nat (length metrics) in
  let mean := total Metric.position / Number.of_Z n in
  (metrics <> [] -> (n < 2 ^ 32)%Z ->
     textContent s' !! "total-clicks"
     = Some (toLocaleString host (total Metric.clicks))
     /\ textContent s' !! "total-impressions"
        = Some (toLocaleString host (total Metric.impressions))
     /\ (forall field counts,
           map field metrics = map Number.of_Z counts ->
           Forall (fun c => (0 <= c)%Z) counts ->
           (fold_right Z.add 0 counts < 2 ^ 53)%Z ->
           exists q,
             total field = Number.of_Z (fold_right Z.add 0%Z counts)
             /\ Number.value_of (total field) = Some q
             /\ (q == inject_Z (fold_right Z.add 0%Z counts))%Q)
     /\ (exists q, Number.value_of (Number.of_Z n) = Some q
                   /\ (q == inject_Z n)%Q)
     /\ textContent s' !! "avg-position" = Some (toFixed host 1 mean)
     /\ forall q, Number.value_of mean = Some q ->
          (1e21 <=? abs mean) = false ->
          exists k : Z,
            toFixed host 1 mean
            = (if Qle_bool 0 q then "" else "-") +:+ Number.fixed_digits 1 k
            /\ Number.read_fixed (Number.fixed_digits 1 k) 0 None
               = Some (k, 1%nat)
            /\ (Qabs (inject_Z k - Qabs q * 10) <= 1 # 2)%Q)
  /\ (metrics = scenario_metrics ->
        textContent s' !! "total-clicks" = Some (toLocaleString host 30)
        /\ textContent s' !! "total-impressions"
           = Some (toLocaleString host 400)
        /\ textContent s' !! "avg-ctr" = Some "7.50%"
        /\ textContent s' !! "avg-position" = Some "5.0").
Proof.
  intros s' total n mean. split.
  - intros Hne Hn. subst s'. rewrite (displayMetrics_nonempty s metrics Hne).
    split; [lookups; reflexivity|]. split; [lookups; reflexivity|].
    split; [|split; [|split; [lookups; reflexivity|]]].
    + intros field counts Hmap Hpos Hsum.
      assert (Hrest : (0 <= fold_right Z.add 0 counts)%Z).
      { clear -Hpos. induction Hpos; cbn; lia. }
      assert (Htotal : total field
                       = Number.of_Z (fold_right Z.add 0%Z counts)).
      { subst total. cbv beta.
        change 0 with (Number.of_Z 0) at 1.
        by rewrite (fold_left_integers field metrics counts 0%Z). }
      destruct (of_Z_value (fold_right Z.add 0%Z counts)) as (q & Hq & Heq);
        [lia|].
      exists q. rewrite Htotal. auto.
    + apply of_Z_value. change (2 ^ 53)%Z with (2 ^ 32 * 2 ^ 21)%Z. lia.
    + intros q Hq Hbig.
      exact (toFixed_nearest (shortest_decimal host) 1 mean q Hq Hbig).
  - intros ->. subst s'.
    rewrite displayMetrics_nonempty by discriminate.
    repeat split; lookups; reflexivity.
Qed.

End Metrics.

(** The scenario samples show "7.50%", the numeral of 750 hundredths, and
    the percentage is exactly 15/2; one sample without impressions shows
    "0%". *)
Lemma displayMetrics_avg_ctr_witness :
  textContent (exec (displayMetrics shop_host scenario_metrics) (initial page))
    !! "avg-ctr" = Some "7.50%"
  /\ (exists (q : Q) (n : Z),
        Number.value_of (30 / 400 * 100)%float = Some q
        /\ (q == 15 # 2)%Q
        /\ toFixed shop_host 2 (30 / 400 * 100)%float
           = Number.fixed_digits 2 n
        /\ Number.read_fixed (Number.fixed_digits 2 n) 0 None = Some (n, 2%nat)
        /\ (Qabs (inject_Z n - Qabs q * 100) <= 1 # 2)%Q)
  /\ textContent
       (exec (displayMetrics shop_host [Metric.mk "2024-01-01" 0 0 1]%float)
          (initial page)) !! "avg-ctr" = Some "0%".
Proof.
  pose proof (displayMetrics_avg_ctr shop_host (initial page) scenario_metrics)
    as [Hpos _].
  pose proof (displayMetrics_avg_ctr shop_host (initial page)
                [Metric.mk "2024-01-01" 0 0 1]%float) as (_ & Hzero & _).
  destruct (Hpos eq_refl) as [Hshown Hround].
  set (q := default 0%Q (Number.value_of (30 / 400 * 100)%float)).
  assert (Hq : Number.value_of (30 / 400 * 100)%float = Some q)
    by (vm_compute; reflexivity).
  destruct (Hround q Hq eq_refl) as (n & Hn & Hread & Hr).
  split; [exact Hshown|]. split; [|exact (Hzero eq_refl)].
  exists q, n. split; [exact Hq|]. split; [vm_compute; reflexivity|].
  split; [exact Hn|]. split; [exact Hread | exact Hr].
Defined.

(** The scenario samples in a browser without digit grouping: 30, 400,
    "7.50%" and "5.0"; the clicks are the integers 10 and 20 and their sum
    is exactly 30, the divisor exactly 2 and the mean exactly 5. *)
Lemma displayMetrics_totals_witness :
  let s' := exec (displayMetrics shop_host scenario_metrics) (initial page) in
  (scenario_metrics <> []
   /\ (Z.of_nat (length scenario_metrics) < 2 ^ 32)%Z
   /\ map Metric.clicks scenario_metrics = map Number.of_Z [10; 20]%Z)
  /\ (textContent s' !! "total-clicks" = Some "30"
      /\ textContent s' !! "total-impressions" = Some "400"
      /\ textContent s' !! "avg-ctr" = Some "7.50%"
      /\ textContent s' !! "avg-position" = Some "5.0")
  /\ (exists q,
        Number.value_of
          (fold_left (fun sum m => sum + Metric.clicks m)%float
             scenario_metrics 0%float) = Some q
        /\ (q == 30)%Q)
  /\ (exists q, Number.value_of (Number.of_Z 2) = Some q /\ (q == 2)%Q)
  /\ exists (q : Q) (n : Z),
       Number.value_of ((0 + 5.5 + 4.5) / 2)%float = Some q
       /\ (q == 5)%Q
       /\ toFixed shop_host 1 ((0 + 5.5 + 4.5) / 2)%float
          = Number.fixed_digits 1 n
       /\ Number.read_fixed (Number.fixed_digits 1 n) 0 None = Some (n, 1%nat)
       /\ (Qabs (inject_Z n - Qabs q * 10) <= 1 # 2)%Q.
Proof.
  pose proof (displayMetrics_totals shop_host (initial page) scenario_metrics)
    as [Hany Hscenario].
  assert (Hne : scenario_metrics <> []) by discriminate.
  assert (Hlen : (Z.of_nat (length scenario_metrics) < 2 ^ 32)%Z)
    by reflexivity.
  assert (Hclicks : map Metric.clicks scenario_metrics
                    = map Number.of_Z [10; 20]%Z) by reflexivity.
  split; [auto|]. split; [exact (Hscenario eq_refl)|].
  destruct (Hany Hne Hlen) as (_ & _ & Hsum & Hdivisor & _ & Hround).
  split; [|split; [exact Hdivisor|]].
  - destruct (Hsum Metric.clicks [10; 20]%Z Hclicks) as (q & _ & Hq & Heq).
    + repeat constructor; discriminate.
    + reflexivity.
    + exists q. split; [exact Hq | exact Heq].
  - set (q := default 0%Q (Number.value_of ((0 + 5.5 + 4.5) / 2)%float)).
    assert (Hq : Number.value_of ((0 + 5.5 + 4.5) / 2)%float = Some q)
      by (vm_compute; reflexivity).
    destruct (Hround q Hq eq_refl) as (n & Hn & Hread & Hr).
    exists q, n. split; [exact Hq|]. split; [vm_compute; reflexivity|].
    split; [exact Hn|]. split; [exact Hread | exact Hr].
Defined.

(** ** Frame rules

    [keeps R c] for a preorder [R] follows the structure of [c]: it is enough
    that each write of [c] is an [R]-step. *)

Global Instance same_preorder {X} (f : State -> X) : PreOrder (same f).
Proof. split; unfold same; [intros ?|intros ? ? ?]; congruence. Qed.

Global Instance preserved_preorder (P : State -> Prop) : PreOrder (preserved P).
Proof. split; unfold preserved; [intros ?|intros ? ? ?]; auto. Qed.

Section Frame.
Context (R : relation State) `{!PreOrder R}.

Lemma keeps_ret {A} (a : A) : keeps R (ret a).
Proof. intros s. reflexivity. Qed.

Lemma keeps_throw {A} e : keeps R (@throw A e).
Proof. intros s. reflexivity. Qed.

Lemma keeps_gets {A} (f : State -> A) : keeps R (gets f).
Proof. intros s. reflexivity. Qed.

Lemma keeps_modify f : (forall s, R s (f s)) -> keeps R (modify f).
Proof. intros H s. apply H. Qed.

Lemma keeps_bind {A B} (c : M A) (k : A -> M B) :
  keeps R c -> (forall a, keeps R (k a)) -> keeps R (bind c k).
Proof.
  intros Hc Hk s. unfold bind. specialize (Hc s).
  destruct (c s) as [[a|e] s1]; simpl in *; [|exact Hc].
  etransitivity; [exact Hc|apply Hk].
Qed.

Lemma keeps_try {A} (body : M A) handler finalizer :
  keeps R body -> (forall e, keeps R (handler e)) -> keeps R finalizer ->
  keeps R (try_catch_finally body handler finalizer).
Proof.
  intros Hb Hh Hf s. unfold try_catch_finally. specialize (Hb s).
  destruct (body s) as [[a|e] s1]; simpl in *.
  - specialize (Hf s1). destruct (finalizer s1) as [[?|?] s3]; simpl in *;
      etransitivity; eauto.
  - specialize (Hh e s1). destruct (handler e s1) as [r' s2]; simpl in *.
    specialize (Hf s2). destruct (finalizer s2) as [[?|?] s3]; simpl in *;
      (etransitivity; [exact Hb|]); etransitivity; eauto.
Qed.

Lemma keeps_fetch {A} (reply : list Event -> Request -> FetchOutcome A) r :
  (forall s, R s (record (Fetch r) s)) -> keeps R (fetch reply r).
Proof. intros H s. unfold fetch. destruct (reply _ _); apply H. Qed.

End Frame.

Lemma same_exec {A X} (f : State -> X) (c : M A) s :
  keeps (same f) c -> f (exec c s) = f s.
Proof. intros H. apply H. Qed.

(** The constant at the head of an application. *)
Ltac head_of c :=
  lazymatch c with
  | ?f _ => head_of f
  | _ => c
  end.

Create HintDb frame discriminated.

(** One rule, by the shape of the call; a call that is none of the
    primitives is unfolded. *)
Ltac keeps_step :=
  first
    [ solve [auto with frame nocore]
    | lazymatch goal with
      | |- keeps _ (bind _ _) =>
          apply keeps_bind; [typeclasses eauto| |intros ?]
      | |- keeps _ (try_catch_finally _ _ _) =>
          apply keeps_try; [typeclasses eauto| |intros ?|]
      | |- keeps _ (ret _) => apply keeps_ret; typeclasses eauto
      | |- keeps _ (throw _) => apply keeps_throw; typeclasses eauto
      | |- keeps _ (gets _) => apply keeps_gets; typeclasses eauto
      | |- keeps _ (modify _) => apply keeps_modify; intros ?
      | |- keeps _ (fetch _ _) => apply keeps_fetch; intros ?
      | |- keeps _ (confirm_dialog _ _) => intros ?; cbn [confirm_dialog snd]
      | |- keeps _ (new_Chart _) => intros ?; cbn [new_Chart snd]
      | |- keeps _ (match ?x with _ => _ end) => destruct x
      | |- keeps _ ?c => let h := head_of c in unfold h
      end ].

(** Walks the code of a call down to its writes. *)
Ltac frame := repeat keeps_step.

(** The writes that are left do not touch the observation. *)
Ltac untouched :=
  unfold same; intros; proj; lookups; try reflexivity.

Section Frames.
Variable host : Host.

Lemma loadWebsites_selection :
  keeps (same currentWebsiteId) (loadWebsites host).
Proof. frame; untouched. Qed.

Lemma loadWebsites_panel :
  keeps (same (fun s => display s !! "metrics-section")) (loadWebsites host).
Proof. frame; untouched. Qed.

Lemma loadWebsiteMetrics_selection websiteId :
  keeps (same currentWebsiteId) (loadWebsiteMetrics host websiteId).
Proof. frame; untouched. Qed.

Lemma loadWebsiteMetrics_panel websiteId :
  keeps (same (fun s => display s !! "metrics-section"))
    (loadWebsiteMetrics host websiteId).
Proof. frame; untouched. Qed.

Lemma loadWebsiteMetrics_label websiteId :
  keeps (same (fun s => textContent s !! "selected-website-name"))
    (loadWebsiteMetrics host websiteId).
Proof. frame; untouched. Qed.

Lemma loadWebsiteMetrics_grid websiteId :
  keeps (same websites_grid) (loadWebsiteMetrics host websiteId).
Proof. frame; untouched. Qed.

End Frames.

Section Deletion.
Variable host : Host.

(** [loadWebsites] catches whatever goes wrong: it never throws. *)
Lemma loadWebsites_returns s : fst (loadWebsites host s) = Ret tt.
Proof.
  unfold loadWebsites, displayWebsites. unfold_m.
  destruct (websites_reply host _ _) as [|ok [| |websites|[] error]];
    try reflexivity.
  destruct (length websites =? 0)%nat, (forallb plain_website websites);
    reflexivity.
Qed.

(** What [deleteWebsite] does to the selection and to the metrics panel, by
    the user's answer and the server's reply. *)
Lemma deleteWebsite_outcome s websiteId :
  let s' := exec (deleteWebsite host websiteId) s in
  let panel (s : State) := display s !! "metrics-section" in
  if delete_confirmed host s then
    match delete_reply host websiteId s with
    | Response true _ =>
        if decide (currentWebsiteId s = Some websiteId)
        then currentWebsiteId s' = None /\ panel s' = Some "none"
        else currentWebsiteId s' = currentWebsiteId s /\ panel s' = panel s
    | _ => currentWebsiteId s' = currentWebsiteId s /\ panel s' = panel s
    end
  else currentWebsiteId s' = currentWebsiteId s /\ panel s' = panel s.
Proof.
  unfold delete_confirmed, delete_reply, deleteWebsite, delete_request.
  unfold_m.
  destruct (confirm host (log s) delete_prompt); cbn [negb].
  2: { split; proj; reflexivity. }
  destruct (command_reply host _ _) as [|[] payload].
  1, 3: split; proj; lookups; reflexivity.
  match goal with
  | |- context [loadWebsites host ?s0] =>
      pose proof (loadWebsites_selection host s0) as Hsel;
      pose proof (loadWebsites_panel host s0) as Hpan;
      pose proof (loadWebsites_returns s0) as Hret;
      destruct (loadWebsites host s0) as [r s1]
  end.
  unfold same in Hsel, Hpan. cbn [fst snd] in Hsel, Hpan, Hret. subst r.
  proj in Hsel. proj in Hpan. rewrite lookup_insert_ne in Hpan by discriminate.
  rewrite Hsel.
  destruct (decide (currentWebsiteId s = Some websiteId)) as [Heq|Hne].
  - split; proj; lookups; reflexivity.
  - split; proj; lookups; [exact Hsel | exact Hpan].
Qed.

(** C5: after a confirmed [deleteWebsite(id)] whose DELETE request succeeds,
    the selection is [null] and the metrics panel hidden when [id] was the
    selection, and selection and panel are as before when it was not; they
    are as before too when the request is rejected or answered with a
    failure status, and when the user does not confirm. *)
Theorem deleteWebsite_selection s websiteId :
  let s' := exec (deleteWebsite host websiteId) s in
  let panel (s : State) := display s !! "metrics-section" in
  let unchanged :=
    currentWebsiteId s' = currentWebsiteId s /\ panel s' = panel s in
  (forall payload,
     delete_confirmed host s = true ->
     delete_reply host websiteId s = Response true payload ->
     (currentWebsiteId s = Some websiteId ->
      currentWebsiteId s' = None /\ panel s' = Some "none")
     /\ (currentWebsiteId s <> Some websiteId -> unchanged))
  /\ (delete_confirmed host s = true ->
      (delete_reply host websiteId s = Rejected
       \/ exists payload,
            delete_reply host websiteId s = Response false payload) ->
      unchanged)
  /\ (delete_confirmed host s = false -> unchanged).
Proof.
  intros s' panel unchanged.
  pose proof (deleteWebsite_outcome s websiteId) as H. cbv zeta in H.
  fold s' in H. subst unchanged. split; [|split].
  - intros payload Hyes Hok. rewrite Hyes, Hok in H.
    destruct (decide (currentWebsiteId s = Some websiteId)); split;
      intros; try exact H; contradiction.
  - intros Hyes [Hrej|[payload Hfail]]; rewrite Hyes in H.
    + by rewrite Hrej in H.
    + by rewrite Hfail in H.
  - intros Hno. by rewrite Hno in H.
Qed.

End Deletion.

(** Acme selected: deleting Acme clears the selection and hides the panel,
    deleting Beta leaves both, and so does deleting Acme with the server
    down. *)
Lemma deleteWebsite_selection_witness :
  let s := acme_selected in
  (currentWebsiteId (exec (deleteWebsite shop_host 1) s) = None
   /\ display (exec (deleteWebsite shop_host 1) s) !! "metrics-section"
      = Some "none")
  /\ (currentWebsiteId (exec (deleteWebsite shop_host 2) s) = Some 1%Z
      /\ display (exec (deleteWebsite shop_host 2) s) !! "metrics-section"
         = Some "block")
  /\ (currentWebsiteId (exec (deleteWebsite offline_host 1) s) = Some 1%Z
      /\ display (exec (deleteWebsite offline_host 1) s) !! "metrics-section"
         = Some "block").
Proof.
  intros s.
  pose proof (deleteWebsite_selection shop_host s 1) as [Hdeleted _].
  pose proof (deleteWebsite_selection shop_host s 2) as [Hother _].
  pose proof (deleteWebsite_selection offline_host s 1) as (_ & Hfailed & _).
  split; [|split].
  - exact (proj1 (Hdeleted (Other false None) eq_refl eq_refl) eq_refl).
  - exact (proj2 (Hother (Other false None) eq_refl eq_refl)
             ltac:(discriminate)).
  - exact (Hfailed eq_refl (or_introl eq_refl)).
Defined.

(** ** The loading overlay *)

Lemma finally_hideLoading {A} (body : M A) handler s :
  overlay_released (exec (try_catch_finally body handler hideLoading) s).
Proof.
  unfold exec, try_catch_finally, overlay_released.
  destruct (body s) as [[a|e] s1].
  - unfold_m. proj. split; [apply lookup_insert_eq | apply last_snoc].
  - destruct (handler e s1) as [r s2].
    unfold_m. proj. split; [apply lookup_insert_eq | apply last_snoc].
Qed.

Section Overlay.
Variable host : Host.

(** C7: [loadWebsites], [loadWebsiteMetrics] and [handleAddWebsite] always
    end with the loading overlay hidden, whatever the server replies;
    [deleteWebsite] and [runAudit] do so whenever they get to show it (the
    deletion is confirmed, the selection is truthy) and otherwise leave every
    [display] style as it was. *)
Theorem loading_overlay_released s :
  overlay_released (exec (loadWebsites host) s)
  /\ (forall websiteId,
        overlay_released (exec (loadWebsiteMetrics host websiteId) s))
  /\ overlay_released (exec (handleAddWebsite host) s)
  /\ (forall websiteId,
        let s' := exec (deleteWebsite host websiteId) s in
        if delete_confirmed host s then overlay_released s'
        else display s' = display s)
  /\ (let s' := exec (runAudit host) s in
      match truthy (currentWebsiteId s) with
      | Some _ => overlay_released s'
      | None => display s' = display s
      end).
Proof.
  split; [|split; [|split; [|split]]].
  - apply (finally_hideLoading (A := unit)).
  - intros websiteId. apply (finally_hideLoading (A := unit)).
  - unfold handleAddWebsite.
    cbv beta iota zeta delta [exec bind emit modify get_value gets fst snd].
    apply (finally_hideLoading (A := unit)).
  - intros websiteId. unfold delete_confirmed, deleteWebsite.
    cbv beta iota zeta delta [exec bind confirm_dialog fst snd].
    destruct (confirm host (log s) delete_prompt); cbn [negb].
    + apply (finally_hideLoading (A := unit)).
    + reflexivity.
  - unfold runAudit.
    cbv beta iota zeta delta [exec bind gets fst snd].
    destruct (truthy (currentWebsiteId s)).
    + apply (finally_hideLoading (A := unit)).
    + reflexivity.
Qed.
End Overlay.

(** ** Requests and notifications along the trace *)

Local Open Scope list_scope.

Lemma requests_snoc l e :
  requests (l ++ [e])
  = requests l ++ match e with Fetch r => [r] | _ => [] end.
Proof. unfold requests. rewrite omap_app. destruct e; reflexivity. Qed.

Lemma notifications_snoc l e :
  notifications (l ++ [e])
  = notifications l ++ match e with Notification m t => [(m, t)] | _ => [] end.
Proof. unfold notifications. rewrite omap_app. destruct e; reflexivity. Qed.

(** Reads the requests and notifications off a trace of known events. *)
Ltac trace :=
  cbv beta iota zeta; proj; rewrite ?requests_snoc, ?notifications_snoc;
  cbv beta iota; rewrite ?app_nil_r, <- ?app_assoc; cbn [app].

Section Requests.
Variable host : Host.

Lemma loadWebsiteMetrics_requests websiteId s :
  requests (log (exec (loadWebsiteMetrics host websiteId) s))
  = requests (log s)
    ++ [metrics_request websiteId (default "" (input_value s !! "date-range"))].
Proof.
  unfold loadWebsiteMetrics, displayMetrics, updateChart, updateChart_destroy,
    metrics_request.
  unfold_m. proj.
  destruct (metrics_reply host _ _) as [|ok [| |metrics|[] error]];
    try (trace; reflexivity).
  - destruct (length metrics =? 0)%nat; unfold_m; proj;
      destruct (performanceChart s); trace; reflexivity.
  - cbn [length Nat.eqb]. unfold_m. proj.
    destruct (performanceChart s); trace; reflexivity.
Qed.

(** With no selection, [runAudit] sends nothing and shows an error. *)
Lemma runAudit_no_selection s :
  currentWebsiteId s = None ->
  let s' := exec (runAudit host) s in
  requests (log s') = requests (log s)
  /\ notifications (log s')
     = notifications (log s) ++ [("Please select a website first", "error")].
Proof.
  intros Hnone. unfold runAudit. unfold_m. rewrite Hnone. cbn [truthy].
  split; trace; reflexivity.
Qed.

(** With a selected website other than 0, [runAudit] sends exactly one audit
    request, for that website. *)
Lemma runAudit_selected s websiteId :
  currentWebsiteId s = Some websiteId -> websiteId <> 0%Z ->
  requests (log (exec (runAudit host) s))
  = requests (log s) ++ [audit_request websiteId].
Proof.
  intros Hsel Hnz. unfold runAudit, audit_request. unfold_m.
  rewrite Hsel. cbn [truthy].
  destruct (Z.eqb_spec websiteId 0) as [?|_]; [contradiction|].
  destruct (command_reply host _ _) as [|[] [| |items|empty error]];
    trace; reflexivity.
Qed.

(** With the website 0 selected, [runAudit] behaves as with no selection. *)
Lemma runAudit_selected_zero s :
  currentWebsiteId s = Some 0%Z ->
  let s' := exec (runAudit host) s in
  requests (log s') = requests (log s)
  /\ notifications (log s')
     = notifications (log s) ++ [("Please select a website first", "error")].
Proof.
  intros Hsel. unfold runAudit. unfold_m. rewrite Hsel. cbn [truthy Z.eqb].
  split; trace; reflexivity.
Qed.

Lemma selectWebsite_unfold s websiteId websiteName :
  selectWebsite host websiteId websiteName s
  = loadWebsiteMetrics host websiteId (selecting websiteId websiteName s).
Proof. reflexivity. Qed.

(** C10: [selectWebsite(id, name)] sets [currentWebsiteId], the header label
    and the visibility of the metrics panel in a state [s1] reached before
    any request is sent, then loads the metrics from [s1] with exactly one
    request; the three settings are still there at the end, whatever the
    reply. *)
Theorem selectWebsite_persists s websiteId websiteName :
  let s1 := selecting websiteId websiteName s in
  let s' := exec (selectWebsite host websiteId websiteName) s in
  let selected (s : State) :=
    currentWebsiteId s = Some websiteId
    /\ textContent s !! "selected-website-name"
       = Some (websiteName +:+ " - Metrics")
    /\ display s !! "metrics-section" = Some "block" in
  s' = exec (loadWebsiteMetrics host websiteId) s1
  /\ selected s1
  /\ requests (log s1) = requests (log s)
  /\ requests (log s')
     = requests (log s1)
       ++ [metrics_request websiteId
             (default "" (input_value s !! "date-range"))]
  /\ selected s'.
Proof.
  intros s1 s' selected.
  assert (Hs1 : selected s1).
  { subst s1 selected. unfold selecting. unfold_m. proj.
    repeat split; lookups; reflexivity. }
  assert (Hrun : s' = exec (loadWebsiteMetrics host websiteId) s1)
    by reflexivity.
  split; [exact Hrun|]. split; [exact Hs1|]. split; [|split].
  - subst s1. unfold selecting. unfold_m. trace. reflexivity.
  - rewrite Hrun. apply (loadWebsiteMetrics_requests websiteId s1).
  - rewrite Hrun. destruct Hs1 as (Hc & Ht & Hd). subst selected. cbv beta.
    rewrite (same_exec _ _ s1 (loadWebsiteMetrics_selection host websiteId)).
    rewrite (same_exec _ _ s1 (loadWebsiteMetrics_label host websiteId)).
    rewrite (same_exec _ _ s1 (loadWebsiteMetrics_panel host websiteId)).
    auto.
Qed.
End Requests.

(** C8: [runAudit] with a non-null selection should send exactly one audit
    request for it. With the website of identifier 0 selected from its card,
    it sends none and asks the user to select a website first. *)
Theorem runAudit_website_zero :
  let s := zero_selected in
  let s' := exec (runAudit zero_host) s in
  In (card zero) (websites_grid s)
  /\ currentWebsiteId s = Some 0%Z
  /\ requests (log s') = requests (log s)
  /\ notifications (log s')
     = notifications (log s) ++ [("Please select a website first", "error")].
Proof.
  intros s s'.
  assert (Hsel : currentWebsiteId s = Some 0%Z) by (vm_compute; reflexivity).
  split; [left; reflexivity|]. split; [exact Hsel|].
  exact (runAudit_selected_zero zero_host s Hsel).
Qed.

(** ** The grid *)

Section Grid.
Variable host : Host.

Lemma listed_ids_cards websites :
  omap card_id (map card websites) = map Website.id websites.
Proof.
  induction websites as [|w ws IH]; [reflexivity|]. cbn. by rewrite IH.
Qed.

Lemma plain_websites websites :
  Forall (fun website => plain_website website = true) websites ->
  forallb plain_website websites = true.
Proof.
  induction 1 as [|w ws Hw _ IH]; [reflexivity|].
  cbn [forallb]. by rewrite Hw, IH.
Qed.

(** What [displayWebsites] leaves in the grid for websites whose names and
    URLs are plain text. *)
Lemma displayWebsites_grid s websites :
  Forall (fun website => plain_website website = true) websites ->
  websites_grid (exec (displayWebsites host websites) s)
  = match websites with
    | [] => [empty_state]
    | _ => map card websites
    end.
Proof.
  intros Hplain. unfold displayWebsites.
  rewrite (plain_websites websites Hplain).
  by destruct websites.
Qed.


End Grid.



(** ** The selection and the listed websites *)

Section Selection.
Variable host : Host.

(** What a list load leaves in the grid: the cards of the websites received,
    the empty state, or what was there. *)
Lemma loadWebsites_listed s :
  let s' := exec (loadWebsites host) s in
  match list_reply host s with
  | Response _ (Array websites) =>
      Forall (fun website => plain_website website = true) websites ->
      listed_ids s' = map Website.id websites
  | Response _ (Other true _) => websites_grid s' = [empty_state]
  | _ => websites_grid s' = websites_grid s
  end.
Proof.
  unfold list_reply, list_request, loadWebsites, displayWebsites, listed_ids.
  unfold_m. proj.
  destruct (websites_reply host _ _) as [|ok [| |websites|[] error]];
    try reflexivity.
  intros Hplain. rewrite (plain_websites websites Hplain).
  destruct websites as [|w ws]; [reflexivity|].
  cbn [length Nat.eqb]. proj. apply listed_ids_cards.
Qed.





Lemma selection_listed_select s websiteId websiteName :
  In websiteId (listed_ids s) ->
  selection_listed (exec (selectWebsite host websiteId websiteName) s).
Proof.
  intros Hin i. unfold exec. rewrite selectWebsite_unfold.
  set (s1 := selecting websiteId websiteName s).
  change (snd (loadWebsiteMetrics host websiteId s1))
    with (exec (loadWebsiteMetrics host websiteId) s1).
  unfold listed_ids.
  rewrite (same_exec _ _ s1 (loadWebsiteMetrics_selection host websiteId)),
    (same_exec _ _ s1 (loadWebsiteMetrics_grid host websiteId)).
  intros [= <-]. exact Hin.
Qed.



End Selection.



(** ** Chart instances *)

Lemma prefix_snoc_inv {A} (p l : list A) e :
  p `prefix_of` l ++ [e] -> p `prefix_of` l \/ p = l ++ [e].
Proof.
  intros [k Hk]. destruct k as [|x k _] using rev_ind.
  - right. rewrite app_nil_r in Hk. congruence.
  - left. rewrite app_assoc in Hk. apply app_inj_tail in Hk as [-> _].
    by exists k.
Qed.

Lemma live_at_snoc l e : live_at (l ++ [e]) = chart_step (live_at l) e.
Proof. unfold live_at. by rewrite fold_left_app. Qed.

(** An event that is not a chart event leaves the chart invariant as it is,
    whatever else of the page changes with it. *)
Lemma chart_inv_record e s s' :
  log s' = log s ++ [e] ->
  is_chart_event e = false ->
  performanceChart s' = performanceChart s ->
  instances s' = instances s ->
  chart_inv s -> chart_inv s'.
Proof.
  intros Hlog He Hpc Hinst [Hprefix Hlive]. unfold chart_inv.
  assert (Hstep : live_at (log s') = live_at (log s)).
  { rewrite Hlog, live_at_snoc. by destruct e. }
  rewrite Hpc, Hinst, Hstep. split; [|exact Hlive].
  intros p Hp. rewrite Hlog in Hp.
  apply prefix_snoc_inv in Hp as [Hp| ->]; [by apply Hprefix|].
  rewrite <- Hlog, Hstep. apply Hprefix. reflexivity.
Qed.

Lemma chart_inv_ext s s' :
  log s' = log s ->
  performanceChart s' = performanceChart s ->
  instances s' = instances s ->
  chart_inv s -> chart_inv s'.
Proof. unfold chart_inv. intros -> -> ->. auto. Qed.

Lemma chart_inv_initial page : chart_inv (initial page).
Proof.
  split.
  - intros p Hp. apply prefix_nil_inv in Hp as ->. cbn. lia.
  - left. auto.
Qed.

Lemma filter_other (c : nat) :
  List.filter (fun x => negb (x =? c)%nat) [c] = [].
Proof. cbn. by rewrite Nat.eqb_refl. Qed.

Section Charts.
Variable host : Host.

(** What [updateChart] does to the chart: the old instance, if any, is
    destroyed, then the new one is created and assigned. *)
Lemma updateChart_chart s metrics :
  let s' := exec (updateChart host metrics) s in
  let old := match performanceChart s with
             | Some c => [ChartDestroy c]
             | None => []
             end in
  log s' = log s ++ old ++ [ChartNew (chart_count s)]
  /\ performanceChart s' = Some (chart_count s)
  /\ exists config,
       instances s'
       = <[chart_count s := config]>
           (match performanceChart s with
            | Some c => delete c (instances s)
            | None => instances s
            end).
Proof.
  unfold updateChart. unfold_m.
  destruct (performanceChart s) as [c|]; cbv beta iota zeta; proj.
  - split; [by rewrite <- app_assoc|]. split; [reflexivity|]. eauto.
  - split; [reflexivity|]. split; [reflexivity|]. eauto.
Qed.

Lemma updateChart_chart_inv metrics :
  keeps (preserved chart_inv) (updateChart host metrics).
Proof.
  intros s [Hprefix Hlive].
  change (snd (updateChart host metrics s))
    with (exec (updateChart host metrics) s).
  destruct (updateChart_chart s metrics) as (Hlog & Hpc & config & Hinst).
  set (s' := exec (updateChart host metrics) s) in *.
  assert (Hgone : forall c, performanceChart s = Some c ->
                            live_at (log s ++ [ChartDestroy c]) = []).
  { intros c Hc. rewrite live_at_snoc.
    destruct Hlive as [(_ & ->)|(c0 & config0 & Hsome & _ & ->)];
      [reflexivity|].
    rewrite Hc in Hsome. injection Hsome as ->. apply filter_other. }
  assert (Hnone : performanceChart s = None -> live_at (log s) = []).
  { intros Hc. destruct Hlive as [(_ & ->)|(c0 & config0 & Hsome & _)];
      congruence. }
  assert (Hone : instances s' = {[chart_count s := config]}).
  { rewrite Hinst.
    destruct Hlive as [(-> & _)|(c0 & config0 & -> & -> & _)].
    - destruct (performanceChart s);
        by rewrite ?delete_empty, insert_empty.
    - by rewrite delete_singleton_eq, insert_empty. }
  destruct (performanceChart s) as [c|] eqn:Hc; cbn [app] in Hlog.
  - specialize (Hgone c eq_refl).
    assert (Hnew : live_at (log s') = [chart_count s]).
    { rewrite Hlog.
      change (log s ++ [ChartDestroy c; ChartNew (chart_count s)])
        with (log s ++ [ChartDestroy c] ++ [ChartNew (chart_count s)]).
      by rewrite app_assoc, live_at_snoc, Hgone. }
    split.
    + intros p Hp. rewrite Hlog in Hp.
      change (log s ++ [ChartDestroy c; ChartNew (chart_count s)])
        with (log s ++ [ChartDestroy c] ++ [ChartNew (chart_count s)]) in Hp.
      rewrite app_assoc in Hp.
      apply prefix_snoc_inv in Hp as [Hp| ->].
      * apply prefix_snoc_inv in Hp as [Hp| ->]; [by apply Hprefix|].
        rewrite Hgone. cbn. lia.
      * rewrite live_at_snoc, Hgone. cbn. lia.
    + right. exists (chart_count s), config. auto.
  - specialize (Hnone eq_refl).
    assert (Hnew : live_at (log s') = [chart_count s])
      by (rewrite Hlog, live_at_snoc, Hnone; reflexivity).
    split.
    + intros p Hp. rewrite Hlog in Hp.
      apply prefix_snoc_inv in Hp as [Hp| ->]; [by apply Hprefix|].
      rewrite <- Hlog, Hnew. cbn. lia.
    + right. exists (chart_count s), config. auto.
Qed.

(** A metrics load that stops between the two halves of [updateChart]
    leaves no chart. *)
Lemma updateChart_destroy_chart_inv :
  keeps (preserved chart_inv) updateChart_destroy.
Proof.
  intros s Hs. pose proof Hs as [Hprefix Hlive].
  unfold updateChart_destroy. unfold_m.
  destruct (performanceChart s) as [c|] eqn:Hc; cbv beta iota; [|exact Hs].
  assert (Hgone : live_at (log s ++ [ChartDestroy c]) = []).
  { rewrite live_at_snoc.
    destruct Hlive as [(_ & ->)|(c0 & config0 & Hsome & _ & ->)];
      [reflexivity|].
    injection Hsome as <-. apply filter_other. }
  split; proj.
  - intros p Hp.
    apply prefix_snoc_inv in Hp as [Hp| ->]; [by apply Hprefix|].
    rewrite Hgone. cbn. lia.
  - left. split; [|exact Hgone].
    destruct Hlive as [(-> & _)|(c0 & config0 & Hsome & -> & _)].
    + apply delete_empty.
    + injection Hsome as <-.
      apply delete_singleton_eq.
Qed.

#[local] Hint Resolve updateChart_chart_inv updateChart_destroy_chart_inv
  : frame.

(** The writes that are left are not chart events. *)
Ltac no_chart_event :=
  unfold preserved; intros;
  repeat first
    [ assumption
    | eapply chart_inv_record; [reflexivity..|]
    | eapply chart_inv_ext; [reflexivity..|] ].

Lemma perform_chart_inv a : keeps (preserved chart_inv) (perform host a).
Proof. destruct a; frame; no_chart_event. Qed.

Lemma session_chart_inv actions s :
  chart_inv s -> chart_inv (session host actions s).
Proof.
  revert s. induction actions as [|a actions IH]; intros s Hs; [exact Hs|].
  cbn [session fold_left]. apply IH. by apply perform_chart_inv.
Qed.

(** C6: along every session from the initial page there is never more than
    one live chart instance, in the library's registry and at every point
    of the trace, and the live one is the one [performanceChart] refers to;
    every call of [updateChart] destroys the chart [performanceChart]
    refers to, when there is one, before it creates the new one, which it
    assigns. *)
Theorem one_chart_instance :
  (forall page actions,
     let s := session host actions (initial page) in
     size (instances s) <= 1
     /\ chart_owned s
     /\ forall p, p `prefix_of` log s -> length (live_at p) <= 1)
  /\ (forall s metrics,
        let s' := exec (updateChart host metrics) s in
        chart_events (log s')
        = chart_events (log s)
          ++ match performanceChart s with
             | Some c => [ChartDestroy c]
             | None => []
             end
          ++ [ChartNew (chart_count s)]
        /\ performanceChart s' = Some (chart_count s)
        /\ is_Some (instances s' !! chart_count s)
        /\ forall c, performanceChart s = Some c -> c <> chart_count s ->
                     instances s' !! c = None).
Proof.
  split.
  - intros page actions s.
    destruct (session_chart_inv actions (initial page)
                (chart_inv_initial page)) as [Hprefix Hlive].
    fold s in Hprefix, Hlive. split; [|split; [|exact Hprefix]].
    + destruct Hlive as [(-> & _)|(c & config & _ & -> & _)].
      * rewrite map_size_empty. lia.
      * rewrite map_size_singleton. lia.
    + intros c config.
      destruct Hlive as [(-> & _)|(c0 & config0 & -> & -> & _)].
      * rewrite lookup_empty. discriminate.
      * intros [-> _]%lookup_singleton_Some. reflexivity.
  - intros s metrics s'.
    destruct (updateChart_chart s metrics) as (Hlog & Hpc & config & Hinst).
    fold s' in Hlog, Hpc, Hinst.
    split; [|split; [exact Hpc|split]].
    + rewrite Hlog. unfold chart_events. rewrite !List.filter_app.
      by destruct (performanceChart s).
    + rewrite Hinst, lookup_insert_eq. eauto.
    + intros c Hc Hne. rewrite Hinst, Hc.
      rewrite lookup_insert_ne by congruence. apply lookup_delete_eq.
Qed.

End Charts.

(** Three metric loads in a row: each chart is destroyed before the next is
    created, and one is live at the end. *)
Lemma one_chart_instance_witness :
  let s := session shop_host
             [PageLoad; ClickGrid (CallSelectWebsite 1 "Acme");
              ChangeDateRange "7"; ClickGrid (CallSelectWebsite 2 "Beta")]
             (initial page) in
  (size (instances s) <= 1)%nat
  /\ (length (live_at (log s)) <= 1)%nat
  /\ chart_events (log s)
     = [ChartNew 0; ChartDestroy 0; ChartNew 1; ChartDestroy 1; ChartNew 2]
  /\ instances (exec (updateChart shop_host scenario_metrics) s) !! 2%nat
     = None.
Proof.
  intros s.
  destruct (one_chart_instance shop_host) as [Hsession Hupdate].
  destruct (Hsession page
              [PageLoad; ClickGrid (CallSelectWebsite 1 "Acme");
               ChangeDateRange "7"; ClickGrid (CallSelectWebsite 2 "Beta")])
    as (Hsize & _ & Hprefix).
  destruct (Hupdate s scenario_metrics) as (_ & _ & _ & Hgone).
  split; [exact Hsize|]. split; [apply Hprefix; reflexivity|].
  split; [vm_compute; reflexivity|].
  apply Hgone; [reflexivity | discriminate].
Defined.

(** * Further properties of the controller *)

(** ** No exception escapes a handler *)

Lemma returns_ret {A} (a : A) : returns (ret a).
Proof. intros s. by exists a. Qed.

Lemma returns_modify f : returns (modify f).
Proof. intros s. by exists tt. Qed.

Lemma returns_gets {A} (f : State -> A) : returns (gets f).
Proof. intros s. by exists (f s). Qed.

Lemma returns_bind {A B} (c : M A) (k : A -> M B) :
  returns c -> (forall a, returns (k a)) -> returns (bind c k).
Proof.
  intros Hc Hk s. unfold bind. destruct (Hc s) as [a Ha].
  destruct (c s) as [r s1]. cbn [fst] in Ha. subst r. apply Hk.
Qed.

(** Whatever the body does, a [try] whose handler and finalizer end normally
    ends normally. *)
Lemma returns_try {A} (body : M A) handler finalizer :
  (forall e, returns (handler e)) -> returns finalizer ->
  returns (try_catch_finally body handler finalizer).
Proof.
  intros Hh Hf s. unfold try_catch_finally.
  destruct (body s) as [[a|e] s1].
  - destruct (Hf s1) as [u Hu]. destruct (finalizer s1) as [r s3].
    cbn [fst] in Hu. subst r. by exists a.
  - destruct (Hh e s1) as [a Ha]. destruct (handler e s1) as [r' s2].
    cbn [fst] in Ha. subst r'.
    destruct (Hf s2) as [u Hu]. destruct (finalizer s2) as [r s3].
    cbn [fst] in Hu. subst r. by exists a.
Qed.

Lemma returns_confirm host m : returns (confirm_dialog host m).
Proof. intros s. by eexists. Qed.

(** One rule, by the shape of the call. *)
Ltac returns_step :=
  lazymatch goal with
  | |- returns (bind _ _) => apply returns_bind; [|intros ?]
  | |- returns (try_catch_finally _ _ _) => apply returns_try; [intros ?|]
  | |- returns (ret _) => apply returns_ret
  | |- returns (gets _) => apply returns_gets
  | |- returns (modify _) => apply returns_modify
  | |- returns (confirm_dialog _ _) => apply returns_confirm
  | |- returns (match ?x with _ => _ end) => destruct x
  | |- returns ?c => let h := head_of c in unfold h
  end.

Section Returns.
Variable host : Host.

(** X1: no exception escapes a function of the script. Whatever the host
    replies and whatever the state, the page-load listener, a call of
    [selectWebsite], [deleteWebsite] or [showAddWebsiteModal] from an
    [onclick] attribute, with any identifier and name, the submit and change
    listeners, [runAudit], [refreshData] and the two modal functions return
    normally: what is thrown inside a [try] is caught, and no [catch] or
    [finally] throws. A click on an element whose attribute is not such a
    call is not among the actions: that code is not the script's. *)
Theorem perform_returns a s : fst (perform host a s) = Ret tt.
Proof.
  assert (H : returns (perform host a)) by (destruct a; repeat returns_step).
  destruct (H s) as [[] Hs]. exact Hs.
Qed.

End Returns.

(** ** The loading overlay over a session *)

Global Instance overlay_settled_preorder : PreOrder overlay_settled.
Proof.
  split.
  - intros s. by right.
  - intros s1 s2 s3 H12 [H|H]; [by left|].
    destruct H12 as [H'|H']; [left|right]; congruence.
Qed.

Lemma try_hideLoading_settled {A} (body : M A) handler :
  keeps overlay_settled (try_catch_finally body handler hideLoading).
Proof. intros s. left. apply (finally_hideLoading body handler s). Qed.

Section Overlay_session.
Variable host : Host.

#[local] Hint Resolve try_hideLoading_settled : frame.

Lemma perform_overlay_settled a : keeps overlay_settled (perform host a).
Proof.
  destruct a; frame; intros; right; proj; lookups; reflexivity.
Qed.

(** X2: in no state between two actions of a session started on the
    initial page is the loading overlay left visible: every [showLoading()]
    is inside a [try] whose [finally] calls [hideLoading()]. *)
Theorem overlay_never_left_shown page actions :
  ~ overlay_shown (session host actions (initial page)).
Proof.
  assert (H : forall s, ~ overlay_shown s ->
                        ~ overlay_shown (session host actions s)).
  { induction actions as [|a actions IH]; intros s Hs; [exact Hs|].
    cbn [session fold_left]. apply IH.
    destruct (perform_overlay_settled a s) as [Hnone|Hsame];
      unfold overlay_shown, exec in *; congruence. }
  apply H. unfold overlay_shown. cbn. by rewrite lookup_empty.
Qed.

End Overlay_session.

(** ** What each call sends and shows, by the reply *)

Lemma console_snoc l e :
  console (l ++ [e])
  = console l ++ match e with
                 | ConsoleError label x => [inl (label, x)]
                 | ConsoleLog label => [inr label]
                 | _ => []
                 end.
Proof. unfold console. rewrite omap_app. destruct e; reflexivity. Qed.

(** Reads the requests, notifications and console messages off a trace of
    known events. *)
Ltac trace_all :=
  cbv beta iota zeta; proj;
  rewrite ?requests_snoc, ?notifications_snoc, ?console_snoc;
  cbv beta iota; rewrite ?app_nil_r, <- ?app_assoc; cbn [app].

Section Outcomes.
Variable host : Host.

(** X3: [loadWebsites()] sends exactly one request, GET /api/websites.
    When the reply parses to an array, the grid becomes what
    [displayWebsites] renders for it, whatever the HTTP status, and nothing
    is notified or logged; so it is for a value that is no array but has
    the length 0, which gives the empty state. When the request is
    rejected, the body is not JSON, or the JSON is [null] or another value
    that is no array, the grid is left as it was, one
    "Error loading websites" error notification is shown and the error is
    logged on the console. *)
Theorem loadWebsites_outcome s :
  let s' := exec (loadWebsites host) s in
  requests (log s') = requests (log s) ++ [list_request]
  /\ match list_reply host s with
     | Response _ (Array websites) =>
         websites_grid s'
         = websites_grid (exec (displayWebsites host websites) s)
         /\ notifications (log s') = notifications (log s)
         /\ console (log s') = console (log s)
     | Response _ (Other true _) =>
         websites_grid s' = [empty_state]
         /\ notifications (log s') = notifications (log s)
         /\ console (log s') = console (log s)
     | reply =>
         websites_grid s' = websites_grid s
         /\ notifications (log s')
            = notifications (log s) ++ [("Error loading websites", "error")]
         /\ console (log s')
            = console (log s)
              ++ [inl ("Error loading websites:",
                       match reply with
                       | Rejected => NetworkError
                       | Response _ NotJson => SyntaxError
                       | _ => TypeError
                       end)]
     end.
Proof.
  unfold list_reply, list_request, loadWebsites, displayWebsites.
  unfold_m. proj.
  destruct (websites_reply host _ _) as [|ok [| |websites|[] error]];
    cbn [length Nat.eqb].
  1-3, 5, 6: repeat split; trace_all; reflexivity.
  destruct websites as [|w ws]; cbn [length Nat.eqb];
    [|destruct (forallb plain_website (w :: ws))];
    repeat split; trace_all; reflexivity.
Qed.

(** X4: [loadWebsiteMetrics(id)] sends exactly one request, for the
    metrics of [id] over the days of the date-range control. When the reply
    parses to an array, whatever the HTTP status, the summary fields are
    those [displayMetrics] writes, the chart is a new instance configured
    with the dates, clicks, impressions and positions of the samples, and
    nothing is notified. For a value that is no array but has the length 0
    the summary fields are set to the four zeros, the chart, if there is
    one, is destroyed and its handle kept, and "Error loading metrics" is
    shown. For every other reply the summary fields, the chart handle and
    the chart instances are as before and "Error loading metrics" is
    shown. *)
Theorem loadWebsiteMetrics_outcome s websiteId :
  let s' := exec (loadWebsiteMetrics host websiteId) s in
  requests (log s')
  = requests (log s)
    ++ [metrics_request websiteId (form_value s "date-range")]
  /\ match metrics_reply_in host websiteId s with
     | Response _ (Array metrics) =>
         textContent s' = textContent (exec (displayMetrics host metrics) s)
         /\ performanceChart s' = Some (chart_count s)
         /\ instances s' !! chart_count s = Some (chart_of host metrics)
         /\ notifications (log s') = notifications (log s)
     | Response _ (Other true _) =>
         textContent s' = textContent (exec (displayMetrics host []) s)
         /\ performanceChart s' = performanceChart s
         /\ instances s'
            = match performanceChart s with
              | Some c => delete c (instances s)
              | None => instances s
              end
         /\ notifications (log s')
            = notifications (log s) ++ [("Error loading metrics", "error")]
     | _ =>
         textContent s' = textContent s
         /\ performanceChart s' = performanceChart s
         /\ instances s' = instances s
         /\ notifications (log s')
            = notifications (log s) ++ [("Error loading metrics", "error")]
     end.
Proof.
  split; [apply loadWebsiteMetrics_requests|].
  unfold metrics_reply_in, metrics_request, form_value, chart_of.
  unfold loadWebsiteMetrics, displayMetrics, updateChart, updateChart_destroy.
  unfold_m. proj.
  destruct (metrics_reply host _ _) as [|ok [| |metrics|[] error]];
    cbn [length Nat.eqb].
  1-3, 6: repeat split; trace_all; reflexivity.
  - destruct metrics as [|m ms]; cbn [length Nat.eqb]; unfold_m; proj;
      destruct (performanceChart s); cbv beta iota zeta; proj;
      (split; [reflexivity|]); (split; [reflexivity|]);
      (split; [apply lookup_insert_eq|]); trace_all; reflexivity.
  - unfold_m. proj.
    destruct (performanceChart s) as [c|] eqn:Hc; cbv beta iota zeta; proj;
      rewrite ?Hc;
      (split; [reflexivity|]); (split; [reflexivity|]);
      (split; [reflexivity|]); trace_all; reflexivity.
Qed.

Lemma loadWebsites_requests s :
  requests (log (exec (loadWebsites host) s))
  = requests (log s) ++ [list_request].
Proof.
  unfold list_request, loadWebsites, displayWebsites. unfold_m. proj.
  destruct (websites_reply host _ _) as [|ok [| |websites|[] error]];
    cbn [length Nat.eqb]; try (trace_all; reflexivity).
  destruct websites as [|w ws]; cbn [length Nat.eqb];
    [|destruct (forallb plain_website (w :: ws))]; trace_all; reflexivity.
Qed.

(** A list load shows nothing, or its one error. *)
Lemma loadWebsites_notifications s :
  exists rest,
    notifications (log (exec (loadWebsites host) s))
    = notifications (log s) ++ rest
    /\ (rest = [] \/ rest = [("Error loading websites", "error")]).
Proof.
  unfold loadWebsites, displayWebsites. unfold_m. proj.
  destruct (websites_reply host _ _) as [|ok [| |websites|[] error]];
    cbn [length Nat.eqb].
  1-3, 6: exists [("Error loading websites", "error")];
    split; [trace_all; reflexivity | by right].
  - exists []. split; [|by left].
    destruct websites as [|w ws]; cbn [length Nat.eqb];
      [|destruct (forallb plain_website (w :: ws))]; trace_all; reflexivity.
  - exists []. split; [trace_all; reflexivity | by left].
Qed.

Lemma loadWebsites_modal :
  keeps (same (fun s => display s !! "add-website-modal")) (loadWebsites host).
Proof. frame; untouched. Qed.

(** Names the state in which a nested [loadWebsites] starts and the one it
    ends in, with what is known of the latter. *)
Ltac reload before after :=
  match goal with
  | |- context [loadWebsites host ?s0] =>
      set (before := s0);
      pose proof (loadWebsites_returns host before) as Hret;
      pose proof (loadWebsites_requests before) as Hreq;
      pose proof (loadWebsites_notifications before) as (rest & Hnote & Hrest);
      pose proof (same_exec _ _ before loadWebsites_modal) as Hmodal;
      pose proof (same_exec _ _ before (loadWebsites_selection host)) as Hsel;
      unfold exec in Hreq, Hnote, Hmodal, Hsel;
      destruct (loadWebsites host before) as [r after];
      cbn [fst snd] in Hret, Hreq, Hnote, Hmodal, Hsel; subst r
  end.

(** X5: [handleAddWebsite] posts the name and URL of the form. On a
    success status it hides the modal, notifies the success and then reloads
    the list with one GET request, whose failure can add one more
    notification; on a rejected request or a failure status it sends nothing
    more, leaves modal and grid as they were, and shows one error
    notification: the [error] text of the reply when there is one,
    "Error adding website" otherwise. *)
Theorem handleAddWebsite_outcome s :
  let name := form_value s "website-name" in
  let url := form_value s "website-url" in
  let s' := exec (handleAddWebsite host) s in
  let modal (s : State) := display s !! "add-website-modal" in
  match add_reply host s with
  | Response true _ =>
      requests (log s')
      = requests (log s) ++ [add_request name url; list_request]
      /\ modal s' = Some "none"
      /\ exists rest,
           notifications (log s')
           = notifications (log s)
             ++ ("Website added successfully!", "success") :: rest
           /\ (rest = [] \/ rest = [("Error loading websites", "error")])
  | reply =>
      requests (log s') = requests (log s) ++ [add_request name url]
      /\ modal s' = modal s
      /\ websites_grid s' = websites_grid s
      /\ notifications (log s')
         = notifications (log s)
           ++ [(match reply with
                | Response _ payload => error_or payload "Error adding website"
                | Rejected => "Error adding website"
                end, "error")]
  end.
Proof.
  unfold add_reply, add_request, form_value, handleAddWebsite.
  unfold hideAddWebsiteModal. unfold_m. proj.
  destruct (command_reply host _ _) as [|[] payload].
  - repeat split; trace_all; lookups; reflexivity.
  - reload before after. subst before.
    revert Hreq Hnote Hmodal. trace_all. lookups. intros Hreq Hnote Hmodal.
    split; [|split].
    + rewrite Hreq. reflexivity.
    + rewrite Hmodal. reflexivity.
    + exists rest. split; [rewrite Hnote; reflexivity | exact Hrest].
  - destruct payload as [| |items|empty error]; repeat split; trace_all;
      lookups; reflexivity.
Qed.

(** X6: the trace of [deleteWebsite(id)]. Confirmed and answered with a
    success status: one DELETE request for [id], then one GET of the list;
    the success notification comes first, and only a failing reload adds
    another. Confirmed and rejected or answered with a failure status: the
    DELETE request only, one "Error deleting website" notification, the grid
    as before. Not confirmed: nothing happens but the dialog. *)
Theorem deleteWebsite_outcome_trace s websiteId :
  let s' := exec (deleteWebsite host websiteId) s in
  if delete_confirmed host s then
    match delete_reply host websiteId s with
    | Response true _ =>
        requests (log s')
        = requests (log s) ++ [delete_request websiteId; list_request]
        /\ exists rest,
             notifications (log s')
             = notifications (log s)
               ++ ("Website deleted successfully!", "success") :: rest
             /\ (rest = [] \/ rest = [("Error loading websites", "error")])
    | _ =>
        requests (log s') = requests (log s) ++ [delete_request websiteId]
        /\ notifications (log s')
           = notifications (log s) ++ [("Error deleting website", "error")]
        /\ websites_grid s' = websites_grid s
    end
  else s' = record (Confirm delete_prompt) s.
Proof.
  unfold delete_confirmed, delete_reply, delete_request, deleteWebsite.
  unfold_m. proj.
  destruct (confirm host (log s) delete_prompt); cbn [negb]; [|reflexivity].
  destruct (command_reply host _ _) as [|[] payload].
  1, 3: repeat split; trace_all; reflexivity.
  reload before after. subst before.
  revert Hreq Hnote. trace_all. intros Hreq Hnote.
  destruct (decide (currentWebsiteId after = Some websiteId));
    (split; [trace_all; rewrite Hreq; reflexivity|]);
    exists rest; (split; [trace_all; rewrite Hnote; reflexivity | exact Hrest]).
Qed.

(** X7: [runAudit()]. With no website selected (the selection is [null],
    or the website 0) no request is sent and "Please select a website first"
    is shown. Otherwise one POST to the audit path of the selection is sent.
    A JSON reply other than [null] gives, with a success status, the success
    notification and a console log of the results and, with a failure
    status, the [error] text of the reply or "Error running audit". A reply
    of [null] with a success status gives the success notification and then,
    as reading its results throws, "Error running audit" with the error
    logged. A rejected request, a body that is not JSON, even under a
    success status, and [null] with a failure status give
    "Error running audit" with the error logged. *)
Theorem runAudit_outcome s :
  let s' := exec (runAudit host) s in
  match truthy (currentWebsiteId s) with
  | None =>
      requests (log s') = requests (log s)
      /\ notifications (log s')
         = notifications (log s) ++ [("Please select a website first", "error")]
  | Some websiteId =>
      requests (log s') = requests (log s) ++ [audit_request websiteId]
      /\ match audit_reply host websiteId s with
         | Response true (Array _ | Other _ _) =>
             notifications (log s')
             = notifications (log s)
               ++ [("Audit completed successfully!", "success")]
             /\ console (log s') = console (log s) ++ [inr "Audit results:"]
         | Response true Null =>
             notifications (log s')
             = notifications (log s)
               ++ [("Audit completed successfully!", "success");
                   ("Error running audit", "error")]
             /\ console (log s')
                = console (log s) ++ [inl ("Error running audit:", TypeError)]
         | Response false ((Array _ | Other _ _) as payload) =>
             notifications (log s')
             = notifications (log s)
               ++ [(error_or payload "Error running audit", "error")]
             /\ console (log s') = console (log s)
         | reply =>
             notifications (log s')
             = notifications (log s) ++ [("Error running audit", "error")]
             /\ console (log s')
                = console (log s)
                  ++ [inl ("Error running audit:",
                           match reply with
                           | Rejected => NetworkError
                           | Response _ NotJson => SyntaxError
                           | _ => TypeError
                           end)]
         end
  end.
Proof.
  unfold audit_reply, audit_request, runAudit. unfold_m. proj.
  destruct (truthy (currentWebsiteId s)) as [websiteId|].
  - destruct (command_reply host _ _) as [|[] [| |items|empty error]];
      repeat split; trace_all; reflexivity.
  - split; trace_all; reflexivity.
Qed.

Lemma loadWebsiteMetrics_input_value websiteId :
  keeps (same input_value) (loadWebsiteMetrics host websiteId).
Proof. frame; untouched. Qed.

Lemma loadWebsites_input_value :
  keeps (same input_value) (loadWebsites host).
Proof. frame; untouched. Qed.

Lemma loadWebsiteMetrics_returns websiteId s :
  fst (loadWebsiteMetrics host websiteId s) = Ret tt.
Proof.
  assert (H : returns (loadWebsiteMetrics host websiteId))
    by repeat returns_step.
  destruct (H s) as [[] Hs]. exact Hs.
Qed.

(** X8: [refreshData()] requests the list, then the metrics of the
    selection over the days of the date-range control when a website other
    than 0 is selected, and nothing else; the last thing it does is to show
    "Data refreshed!" as a success, whether or not the two loads failed. *)
Theorem refreshData_outcome s :
  let s' := exec (refreshData host) s in
  requests (log s')
  = requests (log s)
    ++ list_request
       :: match truthy (currentWebsiteId s) with
          | Some websiteId =>
              [metrics_request websiteId (form_value s "date-range")]
          | None => []
          end
  /\ last (log s') = Some (Notification "Data refreshed!" "success").
Proof.
  unfold refreshData, exec, bind, form_value.
  pose proof (loadWebsites_returns host s) as Hret.
  pose proof (loadWebsites_requests s) as Hreq.
  pose proof (same_exec _ _ s (loadWebsites_selection host)) as Hsel.
  pose proof (same_exec _ _ s loadWebsites_input_value) as Hval.
  unfold exec in Hreq, Hsel, Hval.
  destruct (loadWebsites host s) as [r s1].
  cbn [fst snd] in Hret, Hreq, Hsel, Hval. subst r.
  cbn [gets]. rewrite Hsel.
  destruct (truthy (currentWebsiteId s)) as [websiteId|].
  - pose proof (loadWebsiteMetrics_returns websiteId s1) as Hret1.
    pose proof (loadWebsiteMetrics_requests host websiteId s1) as Hreq1.
    unfold exec in Hreq1.
    destruct (loadWebsiteMetrics host websiteId s1) as [r s2].
    cbn [fst snd] in Hret1, Hreq1. subst r.
    unfold showNotification. unfold_m. proj.
    split; [|apply last_snoc].
    rewrite requests_snoc, app_nil_r, Hreq1, Hreq, Hval, <- app_assoc.
    reflexivity.
  - unfold showNotification. unfold_m. proj.
    split; [|apply last_snoc].
    rewrite requests_snoc, app_nil_r, Hreq. reflexivity.
Qed.

(** X9: a change of the date-range control to [days]. With a website
    selected (other than 0), one metrics request for the selection over
    [days], the new value, is sent; with none, the only change of the page is
    the value of the control. *)
Theorem date_range_change_outcome s days :
  let s' := exec (perform host (ChangeDateRange days)) s in
  form_value s' "date-range" = days
  /\ match truthy (currentWebsiteId s) with
     | Some websiteId =>
         requests (log s')
         = requests (log s) ++ [metrics_request websiteId days]
     | None =>
         s' = set_input_value (<["date-range" := days]> (input_value s)) s
     end.
Proof.
  cbn [perform]. unfold onDateRangeChange, type_value, exec, bind, modify.
  cbn [gets]. proj.
  set (s1 := set_input_value (<["date-range" := days]> (input_value s)) s).
  assert (Hdays : form_value s1 "date-range" = days).
  { unfold form_value, s1. proj. by rewrite lookup_insert_eq. }
  destruct (truthy (currentWebsiteId s)) as [websiteId|].
  - pose proof (loadWebsiteMetrics_requests host websiteId s1) as Hreq.
    pose proof (same_exec _ _ s1
                  (loadWebsiteMetrics_input_value websiteId)) as Hval.
    unfold exec in Hreq, Hval. fold (form_value s1 "date-range") in Hreq.
    rewrite Hdays in Hreq. split; [|exact Hreq].
    unfold form_value. rewrite Hval. exact Hdays.
  - cbn [ret snd]. split; [exact Hdays | reflexivity].
Qed.

End Outcomes.

(** ** The handlers in the grid *)

Section Handlers.
Variable host : Host.

Lemma handlers_card website : handlers (card website) = card_handlers website.
Proof. reflexivity. Qed.

Lemma handlers_cards websites :
  flat_map handlers (map card websites) = flat_map card_handlers websites.
Proof.
  induction websites as [|w ws IH]; [reflexivity|].
  cbn [map flat_map]. by rewrite IH, handlers_card.
Qed.

(** X10: the [onclick] handlers of the grid [displayWebsites] renders,
    for websites whose names and URLs are plain text. For the empty list the
    only handler opens the add-website modal; for a non-empty list the
    handlers are, card by card in the order of the list, the selection of
    the website with its id and name and the deletion of the website with
    its id. So every handler of the grid refers to a website of the list. *)
Theorem grid_handlers s websites :
  Forall (fun website => plain_website website = true) websites ->
  let grid := websites_grid (exec (displayWebsites host websites) s) in
  flat_map handlers grid
  = match websites with
    | [] => [CallShowAddWebsiteModal]
    | _ => flat_map card_handlers websites
    end
  /\ forall h,
       In h (flat_map handlers grid) ->
       match h with
       | CallSelectWebsite websiteId websiteName =>
           exists website,
             In website websites
             /\ websiteId = Website.id website
             /\ websiteName = Website.name website
       | CallDeleteWebsite websiteId =>
           In websiteId (map Website.id websites)
       | CallShowAddWebsiteModal => websites = []
       end.
Proof.
  intros Hplain grid.
  assert (Hgrid : flat_map handlers grid
                  = match websites with
                    | [] => [CallShowAddWebsiteModal]
                    | _ => flat_map card_handlers websites
                    end).
  { subst grid. rewrite (displayWebsites_grid host s websites Hplain).
    destruct websites as [|w ws]; [reflexivity|].
    apply (handlers_cards (w :: ws)). }
  split; [exact Hgrid|]. rewrite Hgrid. clear Hgrid grid.
  intros h Hh. destruct websites as [|w ws].
  - destruct Hh as [<-|[]]. reflexivity.
  - apply in_flat_map in Hh as (website & Hin & Hh).
    destruct Hh as [<-|[<-|[]]].
    + exists website. auto.
    + apply in_map, Hin.
Qed.

(** X11: rendering and clicking compose, for websites whose names and
    URLs are plain text. The [i]-th element of the grid rendered for a list
    is the card of its [i]-th website; a click on that card selects the
    website: its id is the selection, the header shows its name, the metrics
    panel is shown, the grid is unchanged, and the selection is listed. *)
Theorem click_card_selects s websites i website :
  Forall (fun website => plain_website website = true) websites ->
  websites !! i = Some website ->
  let s1 := exec (displayWebsites host websites) s in
  let s2 := exec (click host (CallSelectWebsite (Website.id website)
                                (Website.name website))) s1 in
  (exists c, websites_grid s1 !! i = Some c
             /\ handlers c = card_handlers website)
  /\ currentWebsiteId s2 = Some (Website.id website)
  /\ textContent s2 !! "selected-website-name"
     = Some (Website.name website +:+ " - Metrics")
  /\ display s2 !! "metrics-section" = Some "block"
  /\ websites_grid s2 = websites_grid s1
  /\ selection_listed s2.
Proof.
  intros Hplain Hi s1 s2.
  assert (Hgrid : websites_grid s1 = map card websites).
  { subst s1. rewrite (displayWebsites_grid host s websites Hplain).
    destruct websites; [discriminate Hi | reflexivity]. }
  assert (Hlisted : In (Website.id website) (listed_ids s1)).
  { unfold listed_ids. rewrite Hgrid, listed_ids_cards.
    apply in_map. apply list_elem_of_In. eapply list_elem_of_lookup_2, Hi. }
  split.
  { exists (card website). split; [|reflexivity]. rewrite Hgrid.
    change (map card websites) with (card <$> websites).
    by rewrite list_lookup_fmap, Hi. }
  subst s2. cbn [click]. unfold exec. rewrite selectWebsite_unfold.
  set (s0 := selecting _ _ s1).
  change (snd (loadWebsiteMetrics host (Website.id website) s0))
    with (exec (loadWebsiteMetrics host (Website.id website)) s0).
  rewrite (same_exec _ _ s0 (loadWebsiteMetrics_selection host _)),
    (same_exec _ _ s0 (loadWebsiteMetrics_label host _)),
    (same_exec _ _ s0 (loadWebsiteMetrics_panel host _)),
    (same_exec _ _ s0 (loadWebsiteMetrics_grid host _)).
  split; [|split; [|split; [|split]]].
  1-4: subst s0; unfold selecting; unfold_m; proj; lookups; reflexivity.
  exact (selection_listed_select host s1 _ (Website.name website) Hlisted).
Qed.

End Handlers.

(** The grid rendered for Acme and Beta has four handlers. *)
Lemma grid_handlers_witness :
  Forall (fun website => plain_website website = true) [acme; beta]
  /\ flat_map handlers
       (websites_grid (exec (displayWebsites shop_host [acme; beta])
                         (initial page)))
     = [ CallSelectWebsite 1 "Acme"; CallDeleteWebsite 1;
         CallSelectWebsite 2 "Beta"; CallDeleteWebsite 2 ].
Proof.
  assert (Hplain : Forall (fun website => plain_website website = true)
                     [acme; beta])
    by (repeat constructor).
  split; [exact Hplain|].
  exact (proj1 (grid_handlers shop_host (initial page) [acme; beta] Hplain)).
Defined.

(** The second card of the grid rendered for Acme and Beta is Beta's; the
    click on it selects Beta. *)
Lemma click_card_selects_witness :
  let s1 := exec (displayWebsites shop_host [acme; beta]) (initial page) in
  let s2 := exec (click shop_host (CallSelectWebsite 2 "Beta")) s1 in
  Forall (fun website => plain_website website = true) [acme; beta]
  /\ [acme; beta] !! 1%nat = Some beta
  /\ currentWebsiteId s2 = Some 2%Z
  /\ websites_grid s2 = websites_grid s1
  /\ selection_listed s2.
Proof.
  intros s1 s2.
  assert (Hplain : Forall (fun website => plain_website website = true)
                     [acme; beta])
    by (repeat constructor).
  destruct (click_card_selects shop_host (initial page) [acme; beta] 1 beta
              Hplain eq_refl) as (_ & Hsel & _ & _ & Hgrid & Hlisted).
  split; [exact Hplain|]. split; [reflexivity|]. split; [exact Hsel|].
  split; [exact Hgrid | exact Hlisted].
Defined.

(** ** What an action never touches *)

Section Untouched.
Variable host : Host.

(** X12: the selection is assigned only in [selectWebsite] and
    [deleteWebsite]: an action that is not a click on a card or on a delete
    button leaves [currentWebsiteId] as it was, whatever the host replies. *)
Theorem selection_changed_only_by_select_or_delete a s :
  selects_or_deletes a = false ->
  currentWebsiteId (exec (perform host a) s) = currentWebsiteId s.
Proof.
  intros Ha. apply same_exec.
  destruct a as [|[]| | | | | |]; try discriminate Ha; frame; untouched.
Qed.

(** X13: the summary fields and the chart change only with a metrics
    load: an action other than the selection of a website, a change of the
    date range and a refresh leaves the text of the page, the chart handle
    and the chart instances as they were. *)
Theorem metrics_changed_only_by_metrics_load a s :
  loads_metrics a = false ->
  let s' := exec (perform host a) s in
  textContent s' = textContent s
  /\ performanceChart s' = performanceChart s
  /\ instances s' = instances s.
Proof.
  intros Ha s'. subst s'.
  split; [|split]; apply same_exec;
    destruct a as [|[]| | | | | |]; try discriminate Ha; frame; untouched.
Qed.

(** X14: the grid changes only with a list load: an action other than the
    page load, a deletion, the submission of the form and a refresh leaves
    the grid as it was. *)
Theorem grid_changed_only_by_list_load a s :
  loads_websites a = false ->
  websites_grid (exec (perform host a) s) = websites_grid s.
Proof.
  intros Ha. apply same_exec.
  destruct a as [|[]| | | | | |]; try discriminate Ha; frame; untouched.
Qed.

End Untouched.

(** With Acme selected, a refresh keeps the selection. *)
Lemma selection_changed_only_by_select_or_delete_witness :
  selects_or_deletes ClickRefresh = false
  /\ currentWebsiteId (exec (perform shop_host ClickRefresh) acme_selected)
     = Some 1%Z.
Proof.
  split; [reflexivity|].
  rewrite (selection_changed_only_by_select_or_delete shop_host ClickRefresh
             acme_selected eq_refl).
  vm_compute. reflexivity.
Defined.

(** With Acme selected, an audit leaves the summary fields and the chart. *)
Lemma metrics_changed_only_by_metrics_load_witness :
  let s' := exec (perform shop_host ClickRunAudit) acme_selected in
  loads_metrics ClickRunAudit = false
  /\ textContent s' = textContent acme_selected
  /\ performanceChart s' = performanceChart acme_selected
  /\ instances s' = instances acme_selected.
Proof.
  intros s'. split; [reflexivity|].
  exact (metrics_changed_only_by_metrics_load shop_host ClickRunAudit
           acme_selected eq_refl).
Defined.

(** With Acme selected, a change of the date range leaves the grid. *)
Lemma grid_changed_only_by_list_load_witness :
  loads_websites (ChangeDateRange "7") = false
  /\ websites_grid (exec (perform shop_host (ChangeDateRange "7"))
                      acme_selected)
     = websites_grid acme_selected.
Proof.
  split; [reflexivity|].
  exact (grid_changed_only_by_list_load shop_host (ChangeDateRange "7")
           acme_selected eq_refl).
Defined.

(** ** The selection with a server that has no other client *)

Lemma delete_sent_snoc l e i :
  delete_sent (l ++ [e]) i
  = delete_sent l i
    || match e with
       | Fetch (mkRequest DELETE p _) =>
           String.eqb p ("/api/websites/" +:+ pretty i)
       | _ => false
       end.
Proof.
  unfold delete_sent. rewrite existsb_app. cbn [existsb].
  by rewrite orb_false_r.
Qed.

(** Two websites have the same DELETE path only if they are the same. *)
Lemma delete_path_inj (i j : Z) :
  String.eqb ("/api/websites/" +:+ pretty i) ("/api/websites/" +:+ pretty j)
  = true ->
  i = j.
Proof.
  intros H. apply String.eqb_eq in H.
  apply (inj (String.app "/api/websites/")) in H.
  by apply (inj pretty) in H.
Qed.

Global Instance harmless_preorder : PreOrder harmless.
Proof.
  split.
  - intros s. repeat split; reflexivity.
  - intros s1 s2 s3 (Hc & Hg & Hl & Hd) (Hc' & Hg' & Hl' & Hd').
    split; [congruence|]. split; [congruence|].
    split; [by etransitivity|]. intros i. by rewrite Hd', Hd.
Qed.

Lemma delete_sent_app l l' i :
  delete_sent (l ++ l') i = delete_sent l i || delete_sent l' i.
Proof. unfold delete_sent. by rewrite existsb_app. Qed.

(** Reads off a trace of known events that it holds no DELETE request. *)
Ltac trace_sent :=
  rewrite !delete_sent_app; cbn; rewrite ?orb_false_r; reflexivity.

(** The writes that are left are harmless. *)
Ltac harmless_write :=
  unfold harmless; intros; proj;
  split; [reflexivity|]; split; [reflexivity|];
  split; [first [reflexivity | by apply prefix_app_r]|];
  intros; first [reflexivity | by rewrite delete_sent_snoc, orb_false_r].

Section Sole_client.
Variable host : Host.

Lemma loadWebsiteMetrics_harmless websiteId :
  keeps harmless (loadWebsiteMetrics host websiteId).
Proof. frame; harmless_write. Qed.

Lemma runAudit_harmless : keeps harmless (runAudit host).
Proof. frame; harmless_write. Qed.

Lemma consistent_ext pending s s' :
  (forall i, currentWebsiteId s' = Some i -> In i (listed_ids s)) ->
  websites_grid s' = websites_grid s ->
  log s `prefix_of` log s' ->
  (forall i, In i (listed_ids s) -> ~ pending i ->
             delete_sent (log s') i = false) ->
  grid_from_server host s ->
  consistent host pending s'.
Proof.
  intros Hsel Hgrid Hlog Hsent Hfrom.
  assert (Hids : listed_ids s' = listed_ids s)
    by (unfold listed_ids; by rewrite Hgrid).
  split; [|split].
  - intros i Hi. rewrite Hids. by apply Hsel.
  - intros i Hi Hp. rewrite Hids in Hi. by apply Hsent.
  - destruct Hfrom as [Hnil|(l0 & ok & ws & Hl0 & Hreply & Hlisted)].
    + left. by rewrite Hids.
    + right. exists l0, ok, ws. rewrite Hids.
      split; [by etransitivity|done].
Qed.

Lemma harmless_consistent pending s s' :
  harmless s s' -> consistent host pending s -> consistent host pending s'.
Proof.
  intros (Hc & Hg & Hl & Hd) (Hsel & Hdel & Hfrom).
  apply (consistent_ext pending s s'); auto.
  - intros i Hi. rewrite Hc in Hi. by apply Hsel.
  - intros i Hi Hp. rewrite Hd. by apply Hdel.
Qed.

Hypothesis Hsole : sole_client host.

(** A list load from a consistent state, up to pending deletions: the
    selection is kept and still listed unless its deletion is pending, and
    no deletion is pending for what is listed afterwards. *)
Lemma loadWebsites_consistent pending s :
  consistent host pending s ->
  let s' := exec (loadWebsites host) s in
  currentWebsiteId s' = currentWebsiteId s
  /\ (forall i, currentWebsiteId s = Some i -> ~ pending i ->
                In i (listed_ids s'))
  /\ (forall i, In i (listed_ids s') -> delete_sent (log s') i = false)
  /\ grid_from_server host s'.
Proof.
  intros (Hsel & Hdel & Hfrom) s'.
  split; [apply (same_exec _ _ s (loadWebsites_selection host))|].
  pose proof (loadWebsites_listed host s) as Hlisted. cbv zeta in Hlisted.
  fold s' in Hlisted.
  set (l := log (exec showLoading s)) in *.
  assert (Hl : l = log s ++ [SetDisplay "loading-overlay" "flex"])
    by (subst l; unfold_m; by proj).
  assert (Hlog : exists rest, log s' = l ++ Fetch list_request :: rest
                 /\ forall i, delete_sent (log s') i = delete_sent (log s) i).
  { rewrite Hl. subst s'. unfold list_request, loadWebsites, displayWebsites.
    unfold_m. proj.
    destruct (websites_reply host _ _) as [|ok [| |websites|[] error]];
      cbn [length Nat.eqb];
      [| | |destruct websites as [|w ws]; cbn [length Nat.eqb];
            [|destruct (forallb plain_website (w :: ws))]| |];
      cbv beta iota zeta; proj;
      (eexists; split; [rewrite <- !app_assoc; cbn [app]; reflexivity|]);
      intros i; trace_sent. }
  destruct Hlog as (rest & Hlog & Hsent).
  unfold list_reply in Hlisted. fold l in Hlisted.
  assert (Hpre : log s `prefix_of` l) by (rewrite Hl; by eexists).
  assert (Hlsent : forall i, delete_sent l i = delete_sent (log s) i).
  { intros i. rewrite Hl. by rewrite delete_sent_snoc, orb_false_r. }
  destruct (lists_always host Hsole l) as (ok & websites & Hreply).
  rewrite Hreply in Hlisted.
  specialize (Hlisted (lists_plain host Hsole l ok websites Hreply)).
  split; [|split].
  - intros i Hi Hp. rewrite Hlisted. specialize (Hsel i Hi).
    destruct Hfrom as [Hnil|(l0 & ok0 & ws0 & Hl0 & Hreply0 & Hids0)].
    { rewrite Hnil in Hsel. destruct Hsel. }
    apply (stays_listed host Hsole l0 l ok0 ws0 ok websites i);
      [by do 2 (etransitivity; [eassumption|])|done|done| |].
    + by rewrite <- Hids0.
    + rewrite Hlsent. by apply Hdel.
  - intros i Hi. rewrite Hlisted in Hi. rewrite Hsent, <- Hlsent.
    by apply (deleted_gone host Hsole l ok websites i).
  - right. exists l, ok, websites. split; [|done].
    rewrite Hlog. by eexists.
Qed.

(** With no deletion pending, a list load keeps the page consistent. *)
Lemma loadWebsites_settled :
  keeps (preserved (settled host)) (loadWebsites host).
Proof.
  intros s Hs.
  destruct (loadWebsites_consistent _ s Hs) as (Hsel & Hin & Hsent & Hfrom).
  split; [|split]; [|intros i Hi _; by apply Hsent|done].
  intros i Hi. fold (exec (loadWebsites host) s) in Hi.
  rewrite Hsel in Hi. exact (Hin i Hi (fun H => H)).
Qed.

(** A harmless write keeps the page consistent. *)
Ltac settled_write :=
  unfold preserved; intros; eapply harmless_consistent; [|eassumption];
  harmless_write.

(** A deletion is pending from the DELETE request to the reload that
    follows it; the reload drops the website, and the selection with it. *)
Lemma deleteWebsite_settled websiteId :
  keeps (preserved (settled host)) (deleteWebsite host websiteId).
Proof.
  intros s Hs. unfold deleteWebsite. unfold_m.
  destruct (confirm host (log s) delete_prompt); cbn [negb].
  2: { eapply harmless_consistent; [|exact Hs]. harmless_write. }
  match goal with
  | |- context [command_reply host ?l ?r] =>
      destruct (deletes_always host Hsole l websiteId) as (payload & Hreply);
      unfold delete_request in Hreply; rewrite Hreply
  end.
  match goal with
  | |- context [loadWebsites host ?s0] =>
      assert (Hs0 : consistent host (eq websiteId) s0);
      [|pose proof (loadWebsites_consistent _ s0 Hs0) as Hload;
        pose proof (loadWebsites_returns host s0) as Hret;
        cbv zeta in Hload; unfold exec in Hload;
        destruct (loadWebsites host s0) as [r s1]]
  end.
  { destruct Hs as (Hsel & Hdel & Hfrom). apply (consistent_ext _ s); proj.
    - done.
    - reflexivity.
    - rewrite <- !app_assoc. by apply prefix_app_r.
    - intros i Hi Hne. rewrite !delete_sent_app. cbn.
      rewrite !orb_false_r.
      destruct (String.eqb _ _) eqn:Heq.
      + apply delete_path_inj in Heq. by destruct Hne.
      + rewrite orb_false_r. exact (Hdel i Hi (fun H => H)).
    - done. }
  cbn [fst snd] in Hload, Hret. subst r.
  destruct Hload as (Hsel & Hin & Hsent & Hfrom). proj in Hsel.
  destruct (decide (currentWebsiteId s1 = Some websiteId)) as [Heq|Hne].
  - eapply (consistent_ext _ s1); proj.
    + discriminate.
    + reflexivity.
    + rewrite <- !app_assoc. by apply prefix_app_r.
    + intros i Hi _. rewrite !delete_sent_app. cbn.
      rewrite !orb_false_r. by apply Hsent.
    + done.
  - eapply (consistent_ext _ s1); proj.
    + intros i Hi. rewrite Hsel in Hi. apply Hin; [done|].
      intros <-. by rewrite Hsel in Hne.
    + reflexivity.
    + by apply prefix_app_r.
    + intros i Hi _. rewrite !delete_sent_app. cbn.
      rewrite !orb_false_r. by apply Hsent.
    + done.
Qed.

#[local] Hint Resolve loadWebsites_settled deleteWebsite_settled : frame.

(** Selecting a listed website keeps the page consistent. *)
Lemma selectWebsite_settled websiteId websiteName s :
  In websiteId (listed_ids s) -> settled host s ->
  settled host (exec (selectWebsite host websiteId websiteName) s).
Proof.
  intros Hin (Hsel & Hdel & Hfrom). unfold exec.
  rewrite selectWebsite_unfold.
  apply (harmless_consistent _ (selecting websiteId websiteName s));
    [apply loadWebsiteMetrics_harmless|].
  apply (consistent_ext _ s); unfold selecting; unfold_m; proj.
  - by intros i [= <-].
  - reflexivity.
  - rewrite <- !app_assoc. by apply prefix_app_r.
  - intros i Hi _. rewrite !delete_sent_app. cbn.
    rewrite !orb_false_r. exact (Hdel i Hi (fun H => H)).
  - done.
Qed.

Lemma perform_settled a s :
  allowed a s -> settled host s -> settled host (exec (perform host a) s).
Proof.
  intros Hallowed.
  destruct a as [|[websiteId websiteName|websiteId|]| | | | | |];
    cbn [allowed perform click] in *.
  2: by apply selectWebsite_settled.
  all: clear Hallowed; revert s;
    match goal with
    | |- forall s, settled host s -> settled host (exec ?c s) =>
        change (keeps (preserved (settled host)) c)
    end;
    frame; settled_write.
Qed.

Lemma initial_settled page : settled host (initial page).
Proof.
  split; [done|]. split; [done|]. by left.
Qed.

(** X15: with a server that has this script as its only client (every list
    request is answered with a list of websites with plain names and URLs,
    every deletion is confirmed, a listed website stays listed until this
    script asks for its deletion and is listed no more afterwards) and a
    user who selects only websites shown in the grid, the selection is a
    website of the grid after every action, from the initial page on. *)
Theorem selection_always_listed page s :
  reachable host page s -> selection_listed s.
Proof.
  intros Hs. enough (settled host s) as (H & _) by exact H.
  induction Hs as [|a s Hs IH Ha]; [apply initial_settled|].
  by apply perform_settled.
Qed.

End Sole_client.

(** A server that lists given websites until this script deletes them has
    this script as its only client. *)
Lemma online_sole_client sites :
  Forall (fun website => plain_website website = true) sites ->
  sole_client
    (online (fun l => List.filter (fun w => negb (deleted l w)) sites)).
Proof.
  intros Hplain. split.
  - intros l. by eexists _, _.
  - intros l ok ws [= _ <-]. apply List.Forall_forall. intros w Hw.
    apply List.filter_In in Hw as (Hw & _).
    revert w Hw. by apply List.Forall_forall.
  - intros l i. by eexists.
  - intros l0 l ok0 ws0 ok ws i _ [= _ <-] [= _ <-] Hin Hsent.
    apply List.in_map_iff in Hin as (w & <- & Hw).
    apply List.filter_In in Hw as (Hw & _).
    apply List.in_map_iff. exists w. split; [done|].
    apply List.filter_In. split; [done|].
    change (deleted l w) with (delete_sent l (Website.id w)).
    by rewrite Hsent.
  - intros l ok ws i [= _ <-] Hin.
    apply List.in_map_iff in Hin as (w & <- & Hw).
    apply List.filter_In in Hw as (_ & Hw).
    change (deleted l w) with (delete_sent l (Website.id w)) in Hw.
    by destruct (delete_sent _ _).
Qed.

Lemma shop_sole_client : sole_client shop_host.
Proof. apply (online_sole_client [acme; beta]). repeat constructor. Qed.

(** The shop's page loaded, Acme selected, Beta deleted: Acme is still the
    selection, and listed. *)
Lemma selection_always_listed_witness :
  let s := session shop_host
             [PageLoad; ClickGrid (CallSelectWebsite 1 "Acme");
              ClickGrid (CallDeleteWebsite 2)] (initial page) in
  sole_client shop_host
  /\ reachable shop_host page s
  /\ currentWebsiteId s = Some 1%Z
  /\ selection_listed s.
Proof.
  intros s.
  assert (Hs : reachable shop_host page s).
  { subst s. unfold session. cbn [fold_left].
    apply reachable_step; [apply reachable_step|exact I].
    - apply reachable_step; [apply reachable_initial|exact I].
    - cbn [allowed]. vm_compute. auto. }
  split; [exact shop_sole_client|]. split; [exact Hs|].
  split; [vm_compute; reflexivity|].
  exact (selection_always_listed shop_host shop_sole_client page s Hs).
Defined.
